(** * MedRAG: the retrieval-augmented answering pipeline of [src/medrag_mistral.py]

    A shallow embedding of the [MedRAG] class ([__init__], [answer],
    [custom_stop], [generate]) and of [CustomStoppingCriteria], followed by
    the properties of the dispatch layer.

    Conventions of the embedding.
    - A Python [str] is a [string] whose characters are read as code points
      below 256; [lower], [split], [in], [replace] and the regular expression
      [\s+] are written out for that range.
    - A Python [int] is a [Z]; list slices [l[:n]] and [l[n:]] keep Python's
      treatment of a negative bound.
    - Everything outside the file (retrieval system, tokenizers, model
      handles, hosted APIs, template objects) is a field of the record
      [Collab]; a call that may raise returns a [result] and threads the
      hidden state [Ext] of the outside world.  A tokenizer's [encode] and
      [decode] are total functions.
    - The file system is a list of directories and a list of files, with
      paths compared as strings up to trailing slashes.  [os.makedirs] and
      [open(path, 'w')] raise as the operating system does on an empty
      path, on a regular file in the place of a directory, on a missing
      parent and on an existing target, and beyond that whenever the
      outside world refuses the operation ([os_fault]).
    - Methods run in the monad [M]: a function from a [World] to a [result]
      and a new [World].  The [World] carries, besides the outside state and
      the file system, a log of the calls that were made: each retrieval,
      each entry into [generate], each call of the Mistral model and each
      file written.  No method assigns an attribute after [__init__], so an
      instance is a value that the methods read. *)

From Stdlib Require Import ZArith NArith List Bool Ascii String Lia DecimalString.
From Stdlib Require Import Sorted Permutation.
Import ListNotations.

Local Open Scope string_scope.
Local Open Scope list_scope.

(** ** Python strings and lists *)

Module PyStr.

(** The characters the source writes as escapes. *)
Definition nl : ascii := "010"%char.
Definition nl_str : string := String nl EmptyString.

(** [str.lower] on one code point below 256: the ASCII capitals and the
    Latin-1 capitals (all of 192..222 but the multiplication sign 215). *)
Definition lower_char (c : ascii) : ascii :=
  let n := N_of_ascii c in
  if ((65 <=? n) && (n <=? 90))%N
     || ((192 <=? n) && (n <=? 222) && negb (n =? 215))%N
  then ascii_of_N (n + 32) else c.

Fixpoint lower (s : string) : string :=
  match s with
  | EmptyString => EmptyString
  | String c r => String (lower_char c) (lower r)
  end.

(** [needle in hay]. *)
Fixpoint contains (needle hay : string) : bool :=
  String.prefix needle hay
  || match hay with
     | EmptyString => false
     | String _ r => contains needle r
     end.

(** [s.split(sep)] for a one-character separator: never the empty list. *)
Fixpoint split (sep : ascii) (s : string) : list string :=
  match s with
  | EmptyString => [EmptyString]
  | String c r =>
      if Ascii.eqb c sep then EmptyString :: split sep r
      else match split sep r with
           | h :: t => String c h :: t
           | [] => [String c EmptyString]
           end
  end.

(** [l[0]] and [l[-1]] on the list [split] returns. *)
Definition first (l : list string) : string := hd EmptyString l.
Definition last (l : list string) : string := List.last l EmptyString.

(** [s.replace(old, new)] for a non-empty [old]: occurrences are replaced
    from the left and do not overlap.  [skip] counts the characters of a
    matched occurrence that are still to be passed over. *)
Fixpoint replace_from (skip : nat) (old new s : string) : string :=
  match s with
  | EmptyString => EmptyString
  | String c r =>
      match skip with
      | S k => replace_from k old new r
      | O =>
          if String.prefix old s
          then new ++ replace_from (String.length old - 1) old new r
          else String c (replace_from O old new r)
      end
  end.

Definition replace (old new s : string) : string := replace_from O old new s.

(** [sep.join(l)]. *)
Definition join (sep : string) (l : list string) : string := String.concat sep l.

(** The class [\s] of [re] on a [str] pattern, below 256:
    TAB..CR, FS..US, space, NEL and the no-break space. *)
Definition is_space (c : ascii) : bool :=
  let n := N_of_ascii c in
  (((9 <=? n) && (n <=? 13)) || ((28 <=? n) && (n <=? 32))
   || (n =? 133) || (n =? 160))%N.

(** [re.sub("\s+", " ", s)]: scanning from the left, at a whitespace
    character the greedy [\s+] consumes the whole run and one space is
    written; any other character is copied. *)
Fixpoint re_sub_ws (s : string) : string :=
  match s with
  | EmptyString => EmptyString
  | String c r =>
      if is_space c
      then String " "
             ((fix skip (t : string) : string :=
                 match t with
                 | EmptyString => EmptyString
                 | String d t' =>
                     if is_space d then skip t' else String d (re_sub_ws t')
                 end) r)
      else String c (re_sub_ws r)
  end.

(** [format] of an index with [{:d}]. *)
Definition str_of_nat (n : nat) : string := NilZero.string_of_uint (Nat.to_uint n).

(** [sorted] on strings: insertion into a list ordered by code points. *)
Fixpoint insert_sorted (x : string) (l : list string) : list string :=
  match l with
  | [] => [x]
  | y :: t => if String.leb x y then x :: l else y :: insert_sorted x t
  end.

Definition sorted (l : list string) : list string :=
  fold_right insert_sorted [] l.

(** [l[:n]] and [l[n:]]: a negative bound counts from the end. *)
Definition take {A} (n : Z) (l : list A) : list A :=
  if (n <? 0)%Z then firstn (List.length l - Z.to_nat (- n)) l
  else firstn (Z.to_nat n) l.

Definition skip {A} (n : Z) (l : list A) : list A :=
  if (n <? 0)%Z then skipn (List.length l - Z.to_nat (- n)) l
  else skipn (Z.to_nat n) l.

End PyStr.

Import PyStr.

(** ** Data model *)

(** A chat message: the dictionary with the keys "role" and "content". *)
Record Message := { msg_role : string; msg_content : string }.

(** A retrieved snippet: the dictionary with the keys "title" and "content". *)
Record Snippet := { title : string; content : string }.

(** What [answer] returns first: [answers[0]] when there is one answer, the
    list [answers] otherwise. *)
Inductive Answer :=
| Single (a : string)
| Many (l : list string).

(** The tokenizer objects ([tiktoken] encodings and Hugging Face tokenizers).
    [encode b text] is [encode(text, add_special_tokens=b)]; an encoding of
    [tiktoken] has no such switch and ignores it.  [apply_chat_template]
    takes the current [chat_template] attribute and renders with
    [tokenize=False, add_generation_prompt=True]. *)
Record Tokenizer := {
  encode : bool -> string -> list Z;
  decode : list Z -> string;
  chat_template : option string;
  apply_chat_template : option string -> list Message -> string;
  eos_token_id : Z;
  convert_tokens_to_ids : string -> Z
}.

(** [tokenizer.chat_template = s]. *)
Definition set_chat_template (t : Tokenizer) (s : string) : Tokenizer :=
  {| encode := encode t; decode := decode t; chat_template := Some s;
     apply_chat_template := apply_chat_template t;
     eos_token_id := eos_token_id t;
     convert_tokens_to_ids := convert_tokens_to_ids t |}.

(** The exceptions the embedding distinguishes; [Raised] is an exception
    coming out of a collaborator. *)
Inductive exn :=
| AttributeError (attr : string)
| UnboundLocalError (name : string)
| NameError (name : string)
| IndexError
| KeyError (key : string)
| TypeError (what : string)
| Raised (what : string).

Inductive result (A : Type) :=
| Ok (a : A)
| Err (e : exn).
Arguments Ok {A} a.
Arguments Err {A} e.

(** ** CustomStoppingCriteria *)

Record CustomStoppingCriteria := {
  csc_tokenizer : Tokenizer;
  stops_words : list string;
  input_len : Z
}.

(** [CustomStoppingCriteria.__init__]. *)
Definition CustomStoppingCriteria_init (stop_words : list string)
    (tokenizer : Tokenizer) (input_len : Z) : CustomStoppingCriteria :=
  {| csc_tokenizer := tokenizer; stops_words := stop_words; input_len := input_len |}.

(** [CustomStoppingCriteria.__call__]: [input_ids] is the batch of token
    rows; [scores] is not read. *)
Definition CustomStoppingCriteria_call {S : Type} (self : CustomStoppingCriteria)
    (input_ids : list (list Z)) (scores : S) : result bool :=
  match input_ids with
  | [] => Err IndexError
  | row :: _ =>
      let tokens := decode (csc_tokenizer self) (skip (input_len self) row) in
      Ok (existsb (fun stop => contains stop tokens) (stops_words self))
  end.

(** ** Collaborators *)

(** Keyword arguments of a text-generation pipeline call. *)
Record PipelineArgs := {
  pa_do_sample : bool;
  pa_eos_token_id : list Z;
  pa_pad_token_id : Z;
  pa_max_length : Z;
  pa_truncation : bool;
  pa_stopping_criteria : option (list CustomStoppingCriteria)
}.

(** What [self.model] may hold: a model name (hosted chat completion), a
    hosted generative model, the Mistral model, or a text-generation
    pipeline. *)
Inductive ModelHandle (G M P : Type) :=
| ModelName (name : string)
| Gemini (g : G)
| Mistral (m : M)
| Pipeline (p : P).
Arguments ModelName {G M P} name.
Arguments Gemini {G M P} g.
Arguments Mistral {G M P} m.
Arguments Pipeline {G M P} p.

Record Collab := {
  (** hidden state of the outside world *)
  Ext : Type;
  (** [template]: the names [from template import *] brings in *)
  Template : Type;
  render : Template -> list (string * string) -> string;
  general_cot_system : string;
  general_cot : Template;
  general_medrag_system : string;
  general_medrag : Template;
  meditron_cot : Template;
  meditron_medrag : Template;
  (** the module-level name [tokenizer] that [generate] reads: the file
      itself never binds it, so it is bound only if an import does *)
  module_tokenizer : option Tokenizer;
  (** [utils.RetrievalSystem] *)
  Score : Type;
  RetrievalSystemT : Type;
  RetrievalSystem : string -> string -> string -> Ext -> result RetrievalSystemT * Ext;
  retrieve : RetrievalSystemT -> string -> Z -> Z -> Ext
             -> result (list Snippet * list Score) * Ext;
  (** [tiktoken], [transformers], [os.environ], [open(...).read()] *)
  get_encoding : string -> Ext -> result Tokenizer * Ext;
  from_pretrained : string -> option string -> Ext -> result Tokenizer * Ext;
  environ : string -> option string;
  open_read : string -> Ext -> result string * Ext;
  (** what the operating system refuses: the exception, if any, with which
      the operation (named "makedirs" or "open") on a path ends in the
      given state although the path itself is in order (no permission, a
      full disk, ...) *)
  os_fault : string -> string -> Ext -> option exn;
  (** [openai]: [api_type] after the module's start-up code, and
      [ChatCompletion.create] with [temperature=0.0]; the flag says whether
      the model is passed as [engine] (true) or as [model]; the response is
      read as the contents of its choices *)
  api_type : string;
  PipelineT : Type;
  MistralT : Type;
  GenerativeModelT : Type;
  ChatCompletion_create :
    bool -> ModelHandle GenerativeModelT MistralT PipelineT -> list Message -> Ext
    -> result (list string) * Ext;
  (** [google.generativeai]: the response is read as the texts of the parts
      of its candidates *)
  genai_configure : string -> Ext -> result unit * Ext;
  GenerativeModel : string -> Z -> Z -> Ext -> result GenerativeModelT * Ext;
  generate_content : GenerativeModelT -> string -> Ext -> result (list (list string)) * Ext;
  (** [transformers.pipeline("text-generation", ...)] and its call; the
      response is a list of dictionaries *)
  pipeline : string -> string -> option string -> Ext -> result PipelineT * Ext;
  pipeline_call : PipelineT -> string -> PipelineArgs -> Ext
                  -> result (list (list (string * string))) * Ext;
  (** [mistral_model.get_mistral] and [torch]; [mistral_generate] is the
      model's [generate] with [do_sample=True, temperature=0.9, top_p=0.9,
      max_new_tokens=512, return_dict_in_generate=True,
      output_hidden_states=True] and, in this order, [input_ids],
      [attention_mask], [past_key_values], [streamer], [stopping_criteria]
      and [pad_token_id]; the three [out_] functions read the response at
      ["sequences"], at ["past_key_values"] and at [[0]["generated_text"]] *)
  Tensor : Type;
  PKV : Type;
  Streamer : Type;
  GenOutput : Type;
  get_mistral : Ext -> result MistralT * Ext;
  TextStreamer : Tokenizer -> bool -> bool -> Streamer;
  ones_like : Tensor -> Tensor;
  ones : Z -> Tensor;
  size1 : Tensor -> Z;
  pkv_size : PKV -> Z;
  mistral_generate :
    MistralT -> Tensor -> Tensor -> option PKV -> Streamer
    -> option (list CustomStoppingCriteria) -> Z -> Ext -> result GenOutput * Ext;
  out_sequences : GenOutput -> result Tensor;
  out_past_key_values : GenOutput -> result PKV;
  out_generated_text : GenOutput -> result string
}.

(** ** The world and the monad of methods *)

Section Embedding.

Context (E : Collab).

Definition Handle : Type :=
  ModelHandle (GenerativeModelT E) (MistralT E) (PipelineT E).

(** What [json.dump] wrote into a file. *)
Inductive Saved :=
| SavedSnippets (l : list Snippet)
| SavedAnswers (l : list string).

(** The calls the log keeps: a retrieval, an entry into [generate], a call
    of the Mistral model's [generate] with the [past_key_values] it was
    given, and a file opened for writing. *)
Inductive Event :=
| EvRetrieve (question : string) (k rrf_k : Z)
| EvGenerate (messages : list Message)
| EvModelGenerate (past_key_values : option (PKV E))
| EvWrite (path : string).

Record World := {
  ext : Ext E;
  log : list Event;
  dirs : list string;
  files : list (string * Saved)
}.

Definition M (A : Type) : Type := World -> result A * World.

Definition ret {A} (a : A) : M A := fun w => (Ok a, w).

Definition raise {A} (e : exn) : M A := fun w => (Err e, w).

Definition bind {A B} (m : M A) (k : A -> M B) : M B :=
  fun w =>
    match m w with
    | (Ok a, w') => k a w'
    | (Err e, w') => (Err e, w')
    end.

(** A value or an exception computed without the world. *)
Definition lift {A} (r : result A) : M A := fun w => (r, w).

(** A call into the outside world. *)
Definition call {A} (f : Ext E -> result A * Ext E) : M A :=
  fun w =>
    let (r, x) := f (ext w) in
    (r, {| ext := x; log := log w; dirs := dirs w; files := files w |}).

Definition emit (ev : Event) : M unit :=
  fun w =>
    (Ok tt, {| ext := ext w; log := log w ++ [ev]; dirs := dirs w; files := files w |}).

(** *** The file system

    Paths are strings.  [rstrip_slash] is [p.rstrip('/')]; two paths name
    the same directory when they agree up to trailing slashes ([norm]).
    [dirname] is [os.path.dirname], and [ancestors p] are the directories
    above [p] that [os.makedirs(p)] makes on its way. *)
Fixpoint all_slashes (s : string) : bool :=
  match s with
  | EmptyString => true
  | String c r => Ascii.eqb c "/" && all_slashes r
  end.

Fixpoint rstrip_slash (s : string) : string :=
  match s with
  | EmptyString => EmptyString
  | String c r => if all_slashes s then EmptyString else String c (rstrip_slash r)
  end.

Definition norm (p : string) : string :=
  match p with
  | EmptyString => EmptyString
  | _ => if all_slashes p then "/" else rstrip_slash p
  end.

Fixpoint has_slash (s : string) : bool :=
  match s with
  | EmptyString => false
  | String c r => Ascii.eqb c "/" || has_slash r
  end.

(** [p[:p.rfind('/') + 1]]. *)
Fixpoint dir_part (s : string) : string :=
  match s with
  | EmptyString => EmptyString
  | String c r => if has_slash s then String c (dir_part r) else EmptyString
  end.

Definition dirname (p : string) : string :=
  let head := dir_part p in
  if all_slashes head then head else rstrip_slash head.

Fixpoint ancestors_from (acc s : string) : list string :=
  match s with
  | EmptyString => []
  | String c r =>
      if Ascii.eqb c "/"
      then (if all_slashes acc then [] else [rstrip_slash acc])
           ++ ancestors_from (acc ++ "/") r
      else ancestors_from (acc ++ String c EmptyString) r
  end.

Definition ancestors (p : string) : list string := ancestors_from EmptyString p.

Definition is_dir (p : string) (w : World) : bool :=
  negb (String.eqb p EmptyString)
  && (String.eqb (norm p) "/"
      || existsb (fun q => String.eqb (norm q) (norm p)) (dirs w)).

Definition is_file (p : string) (w : World) : bool :=
  negb (String.eqb p EmptyString)
  && existsb (fun f => String.eqb (fst f) p) (files w).

(** [os.path.exists(p)]. *)
Definition path_exists (p : string) : M bool :=
  fun w => (Ok (is_dir p w || is_file p w), w).

(** [os.makedirs(p)]: the empty path is not found; a regular file on the
    way is not a directory; an existing target is refused; else the
    directory and the ones above it are there, unless the outside world
    refuses. *)
Definition makedirs (p : string) : M unit :=
  fun w =>
    if String.eqb p EmptyString then (Err (Raised "FileNotFoundError"), w)
    else if existsb (fun q => is_file q w) (ancestors p)
    then (Err (Raised "NotADirectoryError"), w)
    else if is_dir p w || is_file (norm p) w
    then (Err (Raised "FileExistsError"), w)
    else match os_fault E "makedirs" p (ext w) with
         | Some e => (Err e, w)
         | None =>
             (Ok tt, {| ext := ext w; log := log w;
                        dirs := p :: ancestors p ++ dirs w; files := files w |})
         end.

Definition ends_with_slash (s : string) : bool :=
  match String.get (String.length s - 1) s with
  | Some c => Ascii.eqb c "/"
  | None => false
  end.

(** [os.path.join(a, b)]. *)
Definition path_join (a b : string) : string :=
  if String.prefix "/" b then b
  else match a with
       | EmptyString => b
       | _ => if ends_with_slash a then a ++ b else a ++ "/" ++ b
       end.

(** The world once [c] has been written to the file [p]. *)
Definition written (p : string) (c : Saved) (w : World) : World :=
  {| ext := ext w; log := log w ++ [EvWrite p]; dirs := dirs w;
     files := (p, c) :: filter (fun f => negb (String.eqb p (fst f))) (files w) |}.

(** [open(p, 'w')] followed by [json.dump] of [c]: the empty path is not
    found; a directory cannot be opened for writing; the directory of the
    file must be there (a regular file in its place is not a directory);
    else the file holds [c], unless the outside world refuses the
    opening. *)
Definition write_file (p : string) (c : Saved) : M unit :=
  fun w =>
    let parent := dirname p in
    if String.eqb p EmptyString then (Err (Raised "FileNotFoundError"), w)
    else if is_dir p w then (Err (Raised "IsADirectoryError"), w)
    else if negb (String.eqb parent EmptyString) && is_file parent w
    then (Err (Raised "NotADirectoryError"), w)
    else if negb (String.eqb parent EmptyString) && negb (is_dir parent w)
    then (Err (Raised "FileNotFoundError"), w)
    else match os_fault E "open" p (ext w) with
         | Some e => (Err e, w)
         | None => (Ok tt, written p c w)
         end.

End Embedding.

Arguments ret {E A} a.
Arguments raise {E A} e.
Arguments bind {E A B} m k.
Arguments lift {E A} r.
Arguments call {E A} f.
Arguments emit {E} ev.
Arguments EvRetrieve {E} question k rrf_k.
Arguments EvGenerate {E} messages.
Arguments EvModelGenerate {E} past_key_values.
Arguments EvWrite {E} path.
Arguments path_exists {E} p.
Arguments makedirs {E} p.
Arguments write_file {E} p c.
Arguments written {E} p c w.
Arguments is_dir {E} p w.
Arguments is_file {E} p w.
Arguments ext {E} w.
Arguments log {E} w.
Arguments dirs {E} w.
Arguments files {E} w.
Arguments Build_World {E} ext log dirs files.

Declare Scope py_scope.
Delimit Scope py_scope with py.
Notation "x <- m ;; k" := (bind m (fun x => k))
  (at level 61, m at next level, right associativity) : py_scope.
Notation "m ;; k" := (bind m (fun _ => k))
  (at level 61, right associativity) : py_scope.
Local Open Scope py_scope.

(** ** The class MedRAG *)

Section MedRAG.

Context (E : Collab).

(** [self.templates]: a dictionary with four fixed keys. *)
Record Templates := {
  cot_system : string;
  cot_prompt : Template E;
  medrag_system : string;
  medrag_prompt : Template E
}.

(** The attributes of an instance.  [max_length] and [context_length] are
    [None] while the attribute has not been assigned. *)
Record MedRAG := {
  llm_name : string;
  rag : bool;
  retriever_name : string;
  corpus_name : string;
  db_dir : string;
  cache_dir : option string;
  retrieval_system : option (RetrievalSystemT E);
  templates : Templates;
  model : Handle E;
  max_length : option Z;
  context_length : option Z;
  tokenizer : Tokenizer
}.

(** Reading an attribute that may be missing. *)
Definition getattr {A} (name : string) (v : option A) : M E A :=
  match v with
  | Some a => ret a
  | None => raise (AttributeError name)
  end.

(** [open(path).read().replace('    ', '').replace('\n', '')]. *)
Definition read_template (path : string) : M E string :=
  text <- call (open_read E path) ;;
  ret (replace nl_str EmptyString (replace "    " EmptyString text)).

(** The token budgets [__init__] assigns on the hosted chat-completion
    branch, from the model part of the name. *)
Definition openai_budgets (model : string) : option Z * option Z :=
  if contains "gpt-3.5" model || contains "gpt-35" model
  then (Some 16384%Z, Some 15000%Z)
  else if contains "gpt-4" model
  then (Some 32768%Z, Some 30000%Z)
  else (None, None).

Definition gemini_budgets (llm_name : string) : option Z * option Z :=
  if contains "1.5" (lower llm_name)
  then (Some 1048576%Z, Some 1040384%Z)
  else (Some 30720%Z, Some 28672%Z).

(** [MedRAG.__init__]. *)
Definition init (llm_name : string) (rag : bool)
    (retriever_name corpus_name db_dir : string) (cache_dir : option string)
    : M E MedRAG :=
  retrieval_system <-
    (if rag
     then rs <- call (RetrievalSystem E retriever_name corpus_name db_dir) ;;
          ret (Some rs)
     else ret None) ;;
  let templates :=
    {| cot_system := general_cot_system E; cot_prompt := general_cot E;
       medrag_system := general_medrag_system E;
       medrag_prompt := general_medrag E |} in
  let mk templates model budgets tokenizer :=
    {| llm_name := llm_name; rag := rag; retriever_name := retriever_name;
       corpus_name := corpus_name; db_dir := db_dir; cache_dir := cache_dir;
       retrieval_system := retrieval_system; templates := templates;
       model := model; max_length := fst budgets;
       context_length := snd budgets; tokenizer := tokenizer |} in
  if String.eqb (lower (first (split "/" llm_name))) "openai" then
    let model := last (split "/" llm_name) in
    let budgets := openai_budgets model in
    tokenizer <- call (get_encoding E "cl100k_base") ;;
    ret (mk templates (ModelName model) budgets tokenizer)
  else if contains "gemini" (lower llm_name) then
    api_key <-
      match environ E "GOOGLE_API_KEY" with
      | Some key => ret key
      | None => raise (KeyError "GOOGLE_API_KEY")
      end ;;
    call (genai_configure E api_key) ;;
    model <- call (GenerativeModel E (last (split "/" llm_name)) 0 2048) ;;
    let budgets := gemini_budgets llm_name in
    tokenizer <- call (get_encoding E "cl100k_base") ;;
    ret (mk templates (Gemini model) budgets tokenizer)
  else
    let budgets := (Some 2048%Z, Some 1024%Z) in
    tokenizer <- call (from_pretrained E llm_name cache_dir) ;;
    cfg <-
      (if contains "mistral" (lower llm_name) then
         t <- read_template "./templates/mistral-instruct.jinja" ;;
         ret (set_chat_template tokenizer t, (Some 32768%Z, Some 30000%Z), templates)
       else if contains "llama-2" (lower llm_name) then
         ret (tokenizer, (Some 4096%Z, Some 3072%Z), templates)
       else if contains "llama-3" (lower llm_name) then
         ret (tokenizer, (Some 8192%Z, Some 7168%Z), templates)
       else if contains "meditron-70b" (lower llm_name) then
         t <- read_template "./templates/meditron.jinja" ;;
         ret (set_chat_template tokenizer t, (Some 4096%Z, Some 3072%Z),
              {| cot_system := cot_system templates;
                 cot_prompt := meditron_cot E;
                 medrag_system := medrag_system templates;
                 medrag_prompt := meditron_medrag E |})
       else if contains "pmc_llama" (lower llm_name) then
         t <- read_template "./templates/pmc_llama.jinja" ;;
         ret (set_chat_template tokenizer t, (Some 2048%Z, Some 1024%Z), templates)
       else ret (tokenizer, budgets, templates)) ;;
    let '(tokenizer, budgets, templates) := cfg in
    model <-
      (if contains "mistral" (lower llm_name)
       then m <- call (get_mistral E) ;; ret (Mistral m)
       else p <- call (pipeline E "text-generation" llm_name cache_dir) ;;
            ret (Pipeline p)) ;;
    ret (mk templates model budgets tokenizer).

(** [MedRAG.custom_stop]: a [StoppingCriteriaList] of one criterion. *)
Definition custom_stop (self : MedRAG) (stop_str : list string) (input_len : Z)
    : list CustomStoppingCriteria :=
  [CustomStoppingCriteria_init stop_str (tokenizer self) input_len].

(** [l[0]] on a list; [d[key]] on a dictionary; [messages[i]["content"]]. *)
Definition item0 {A} (l : list A) : M E A :=
  match l with
  | x :: _ => ret x
  | [] => raise IndexError
  end.

Fixpoint getitem (key : string) (d : list (string * string)) : M E string :=
  match d with
  | [] => raise (KeyError key)
  | (k, v) :: t => if String.eqb key k then ret v else getitem key t
  end.

Definition message_content (i : nat) (messages : list Message) : M E string :=
  match nth_error messages i with
  | Some m => ret (msg_content m)
  | None => raise IndexError
  end.

(** [s.to(device)] on the string that [apply_chat_template] returns with
    [tokenize=False]: a [str] has no attribute [to]. *)
Definition str_to (s device : string) : M E (Tensor E) :=
  raise (AttributeError "to").

(** [MedRAG.generate]: the response given the messages.  The entry into the
    method is logged. *)
Definition generate (self : MedRAG) (messages : list Message) : M E string :=
  emit (EvGenerate messages) ;;
  if contains "openai" (lower (llm_name self)) then
    response <-
      call (ChatCompletion_create E (String.eqb (api_type E) "azure")
              (model self) messages) ;;
    item0 response
  else if contains "gemini" (lower (llm_name self)) then
    match model self with
    | Gemini g =>
        m0 <- message_content 0 messages ;;
        m1 <- message_content 1 messages ;;
        response <- call (generate_content E g (m0 ++ nl_str ++ nl_str ++ m1)%string) ;;
        parts <- item0 response ;;
        item0 parts
    | _ => raise (AttributeError "generate_content")
    end
  else
    let stopping_criteria : option (list CustomStoppingCriteria) := None in
    let prompt :=
      apply_chat_template (tokenizer self) (chat_template (tokenizer self)) messages in
    if contains "mistral" (lower (llm_name self)) then
      let device := "cuda:0" in
      input_ids <- str_to prompt device ;;
      streamer <-
        match module_tokenizer E with
        | Some t => ret (TextStreamer E t true true)
        | None => raise (NameError "tokenizer")
        end ;;
      let past_key_values : option (PKV E) := None in
      let attention_mask :=
        match past_key_values with
        | None => ones_like E input_ids
        | Some p => ones E (size1 E input_ids + pkv_size E p - 1)%Z
        end in
      response <-
        match model self with
        | Mistral m =>
            emit (EvModelGenerate past_key_values) ;;
            call (mistral_generate E m input_ids attention_mask past_key_values
                    streamer stopping_criteria (eos_token_id (tokenizer self)))
        | _ => raise (AttributeError "generate")
        end ;;
      sequence <- lift (out_sequences E response) ;;
      past_key_values <- lift (out_past_key_values E response) ;;
      lift (out_generated_text E response)
    else if contains "meditron" (lower (llm_name self)) then
      let stopping_criteria :=
        Some (custom_stop self ["###"; "User:"; (nl_str ++ nl_str ++ nl_str)%string]
                (Z.of_nat (List.length (encode (tokenizer self) true prompt)))) in
      raise (UnboundLocalError "response")
    else
      let eos :=
        if contains "llama-3" (lower (llm_name self))
        then [eos_token_id (tokenizer self);
              convert_tokens_to_ids (tokenizer self) "<|eot_id|>"]
        else [eos_token_id (tokenizer self)] in
      max_length <- getattr "max_length" (max_length self) ;;
      response <-
        match model self with
        | Pipeline p =>
            call (pipeline_call E p prompt
                    {| pa_do_sample := false; pa_eos_token_id := eos;
                       pa_pad_token_id := eos_token_id (tokenizer self);
                       pa_max_length := max_length; pa_truncation := true;
                       pa_stopping_criteria := stopping_criteria |})
        | _ => raise (TypeError "not callable")
        end ;;
      d <- item0 response ;;
      getitem "generated_text" d.


(** *** [MedRAG.answer] *)

(** [d[key]] for a key of the dictionary [d]. *)
Fixpoint dict_get (key : string) (d : list (string * string)) : string :=
  match d with
  | [] => EmptyString
  | (k, v) :: t => if String.eqb key k then v else dict_get key t
  end.

(** Lines 115-118: the options, one per line, by sorted key. *)
Definition format_options (options : option (list (string * string))) : string :=
  match options with
  | Some d =>
      join nl_str
        (map (fun key => (key ++ ". " ++ dict_get key d)%string) (sorted (map fst d)))
  | None => EmptyString
  end.

(** Line 123: one context per snippet, numbered from 0. *)
Definition format_snippets (retrieved_snippets : list Snippet) : list string :=
  map (fun idx_s : nat * Snippet =>
         ("Document [" ++ str_of_nat (fst idx_s) ++ "] (Title: "
          ++ title (snd idx_s) ++ ") " ++ content (snd idx_s))%string)
      (combine (seq 0 (List.length retrieved_snippets)) retrieved_snippets).

(** [tokenizer.decode(tokenizer.encode(text, ...)[:context_length])]. *)
Definition truncate (tok : Tokenizer) (add_special_tokens : bool)
    (context_length : Z) (text : string) : string :=
  decode tok (take context_length (encode tok add_special_tokens text)).

(** Lines 120-135: retrieve the snippets and build the contexts. *)
Definition answer_retrieve (self : MedRAG) (question : string) (k rrf_k : Z)
    : M E (list Snippet * list (Score E) * list string) :=
  if rag self then
    rs <- getattr "retrieve" (retrieval_system self) ;;
    emit (EvRetrieve question k rrf_k) ;;
    r <- call (retrieve E rs question k rrf_k) ;;
    let '(retrieved_snippets, scores) := r in
    let contexts := format_snippets retrieved_snippets in
    let contexts :=
      if Nat.eqb (List.length contexts) 0 then [EmptyString] else contexts in
    if contains "openai" (lower (llm_name self)) then
      cl <- getattr "context_length" (context_length self) ;;
      ret (retrieved_snippets, scores,
           [truncate (tokenizer self) true cl (join nl_str contexts)])
    else if contains "gemini" (lower (llm_name self)) then
      cl <- getattr "context_length" (context_length self) ;;
      ret (retrieved_snippets, scores,
           [truncate (tokenizer self) true cl (join nl_str contexts)])
    else
      cl <- getattr "context_length" (context_length self) ;;
      ret (retrieved_snippets, scores,
           [truncate (tokenizer self) false cl (join nl_str contexts)])
  else ret ([], [], []).

(** A [for] loop that threads the variables the body updates. *)
Fixpoint for_each {A S} (l : list A) (body : A -> S -> M E S) (s : S) : M E S :=
  match l with
  | [] => ret s
  | x :: t => s' <- body x s ;; for_each t body s'
  end.

Definition chat (system user : string) : list Message :=
  [ {| msg_role := "system"; msg_content := system |};
    {| msg_role := "user"; msg_content := user |} ].

Definition cot_messages (self : MedRAG) (question options : string) : list Message :=
  chat (cot_system (templates self))
       (render E (cot_prompt (templates self))
          [("question", question); ("options", options)]).

Definition medrag_messages (self : MedRAG) (context question options : string)
    : list Message :=
  chat (medrag_system (templates self))
       (render E (medrag_prompt (templates self))
          [("context", context); ("question", question); ("options", options)]).

(** Lines 137-138: make the save directory when it is given and missing. *)
Definition answer_prepare (save_dir : option string) : M E unit :=
  match save_dir with
  | Some d =>
      present <- path_exists d ;;
      if negb present then makedirs d else ret tt
  | None => ret tt
  end.

(** Lines 140-158: generate the answers. *)
Definition answer_generate (self : MedRAG) (question options : string)
    (contexts : list string) : M E (list string) :=
  let answers : list string := [] in
  if negb (rag self) then
    ans <- generate self (cot_messages self question options) ;;
    ret (answers ++ [re_sub_ws ans])
  else
    for_each contexts
      (fun context answers =>
         ans <- generate self (medrag_messages self context question options) ;;
         ret (answers ++ [re_sub_ws ans]))
      answers.

(** Lines 160-164: save the snippets and the answers. *)
Definition answer_save (save_dir : option string)
    (retrieved_snippets : list Snippet) (answers : list string) : M E unit :=
  match save_dir with
  | Some d =>
      write_file (path_join d "snippets.json") (SavedSnippets retrieved_snippets) ;;
      write_file (path_join d "response.json") (SavedAnswers answers)
  | None => ret tt
  end.

(** [MedRAG.answer]. *)
Definition answer (self : MedRAG) (question : string)
    (options : option (list (string * string))) (k rrf_k : Z)
    (save_dir : option string) : M E (Answer * list Snippet * list (Score E)) :=
  let options := format_options options in
  r <- answer_retrieve self question k rrf_k ;;
  let '(retrieved_snippets, scores, contexts) := r in
  answer_prepare save_dir ;;
  answers <- answer_generate self question options contexts ;;
  answer_save save_dir retrieved_snippets answers ;;
  ret (match answers with [a] => Single a | _ => Many answers end,
       retrieved_snippets, scores).

End MedRAG.

Arguments llm_name {E} m.
Arguments rag {E} m.
Arguments retrieval_system {E} m.
Arguments templates {E} m.
Arguments model {E} m.
Arguments max_length {E} m.
Arguments context_length {E} m.
Arguments tokenizer {E} m.
Arguments init {E} llm_name rag retriever_name corpus_name db_dir cache_dir.
Arguments generate {E} self messages.
Arguments answer {E} self question options k rrf_k save_dir.
Arguments answer_retrieve {E} self question k rrf_k.
Arguments answer_generate {E} self question options contexts.
Arguments answer_prepare {E} save_dir.
Arguments answer_save {E} save_dir retrieved_snippets answers.
Arguments cot_messages {E} self question options.
Arguments medrag_messages {E} self context question options.
Arguments custom_stop {E} self stop_str input_len.
Arguments for_each {E A S} l body s.
Arguments getattr {E A} name v.

(** ** Notions the properties are stated with *)

(** [p] occurs in [t]. *)
Definition is_substring (p t : string) : Prop :=
  exists a b : string, t = (a ++ p ++ b)%string.

(** The stop phrases of the meditron branch of [generate]. *)
Definition meditron_stops : list string :=
  ["###"; "User:"; (nl_str ++ nl_str ++ nl_str)%string].

(** The maximal runs of a text: consecutive characters that are all
    whitespace or all not, each run tagged with which. *)
Fixpoint runs (s : string) : list (bool * string) :=
  match s with
  | EmptyString => []
  | String c r =>
      match runs r with
      | (b, blk) :: t =>
          if Bool.eqb b (is_space c) then (b, String c blk) :: t
          else (is_space c, String c EmptyString) :: (b, blk) :: t
      | [] => [(is_space c, String c EmptyString)]
      end
  end.

(** The text with every whitespace run replaced by one space. *)
Fixpoint collapse_blocks (bl : list (bool * string)) : string :=
  match bl with
  | [] => EmptyString
  | (true, _) :: t => (" " ++ collapse_blocks t)%string
  | (false, blk) :: t => (blk ++ collapse_blocks t)%string
  end.

Definition collapse_runs (s : string) : string := collapse_blocks (runs s).

(** The blocks of a decomposition put back together. *)
Fixpoint unblocks (bl : list (bool * string)) : string :=
  match bl with
  | [] => EmptyString
  | (_, blk) :: t => (blk ++ unblocks t)%string
  end.

Fixpoint all_chars (p : ascii -> bool) (s : string) : bool :=
  match s with
  | EmptyString => true
  | String c r => p c && all_chars p r
  end.

(** A decomposition into maximal runs: no block is empty, the characters of
    a block agree with its tag, and neighbouring blocks differ in their tag. *)
Fixpoint maximal_runs (bl : list (bool * string)) : bool :=
  match bl with
  | [] => true
  | (b, blk) :: t =>
      negb (String.eqb blk EmptyString)
      && all_chars (fun c => Bool.eqb (is_space c) b) blk
      && match t with
         | (b', _) :: _ => negb (Bool.eqb b b')
         | [] => true
         end
      && maximal_runs t
  end.

(** What [re_sub_ws] does after it has written the space of a run: pass
    over the rest of the run, then go on as [re_sub_ws]. *)
Definition skip_run : string -> string :=
  fix skip (t : string) : string :=
    match t with
    | EmptyString => EmptyString
    | String d t' => if is_space d then skip t' else String d (re_sub_ws t')
    end.

(** A decomposition without its leading whitespace run. *)
Definition drop_ws_head (bl : list (bool * string)) : list (bool * string) :=
  match bl with
  | (true, _) :: t => t
  | _ => bl
  end.

(** The calls a log holds. *)
Definition gen_calls {E} (l : list (Event E)) : list (list Message) :=
  flat_map (fun ev => match ev with EvGenerate m => [m] | _ => [] end) l.

Definition retrieve_calls {E} (l : list (Event E)) : list (string * Z * Z) :=
  flat_map (fun ev => match ev with EvRetrieve q k r => [(q, k, r)] | _ => [] end) l.

Definition model_calls {E} (l : list (Event E)) : list (option (PKV E)) :=
  flat_map (fun ev => match ev with EvModelGenerate p => [p] | _ => [] end) l.

Definition writes {E} (l : list (Event E)) : list string :=
  flat_map (fun ev => match ev with EvWrite p => [p] | _ => [] end) l.

(** The pairs [(max_length, context_length)] that [__init__] assigns. *)
Definition budget_table : list (Z * Z) :=
  [ (16384, 15000); (32768, 30000); (1048576, 1040384); (30720, 28672);
    (2048, 1024); (4096, 3072); (8192, 7168) ]%Z.

(** The provider and the model part of a backend identifier, as [__init__]
    reads them. *)
Definition provider (llm_name : string) : string := lower (first (split "/" llm_name)).
Definition model_part (llm_name : string) : string := last (split "/" llm_name).

(** The world after lines 137-138 of [answer] and after the save step. *)
Definition after_prepare {E} (save_dir : option string) (w : World E) : World E :=
  snd (answer_prepare save_dir w).

Definition after_save {E} (save_dir : option string) (sn : list Snippet)
    (answers : list string) (w : World E) : World E :=
  snd (answer_save save_dir sn answers w).

(** The world after the retrieval call of [answer_retrieve] has returned
    with outside state [x]. *)
Definition after_retrieve {E} (w : World E) (question : string) (k rrf_k : Z)
    (x : Ext E) : World E :=
  {| ext := x; log := log w ++ [EvRetrieve question k rrf_k];
     dirs := dirs w; files := files w |}.

(** The contexts before truncation (lines 123-125) and the switch
    [add_special_tokens] the branch of lines 126-131 encodes with. *)
Definition contexts_of (sn : list Snippet) : list string :=
  if Nat.eqb (List.length (format_snippets sn)) 0 then [EmptyString]
  else format_snippets sn.

Definition hosted_name {E} (self : MedRAG E) : bool :=
  contains "openai" (lower (llm_name self)) || contains "gemini" (lower (llm_name self)).

(** A computation that leaves the file system alone and adds to the log
    only events that satisfy [ok]. *)
Definition frame {E A} (ok : Event E -> Prop) (m : M E A) : Prop :=
  forall w,
    files (snd (m w)) = files w /\ dirs (snd (m w)) = dirs w
    /\ exists evs, log (snd (m w)) = log w ++ evs /\ Forall ok evs.

Definition is_model_call {E} (ev : Event E) : Prop := ev = EvModelGenerate None.

Definition is_retrieve {E} (ev : Event E) : Prop :=
  exists q k r, ev = EvRetrieve q k r.

(** ** Sample collaborators

    A character-level tokenizer (one token per character, the token being
    the code point), a character-level tokenizer with an unknown token
    (printable ASCII is kept, any other character becomes token 0, which
    decodes to the text of the unknown token), and an outside world that
    answers every retrieval with [snips] and every model call with [reply],
    counting the calls it receives. *)

Definition codes (s : string) : list Z :=
  map (fun c => Z.of_N (N_of_ascii c)) (list_ascii_of_string s).

Definition text_of (l : list Z) : string :=
  string_of_list_ascii (map (fun z => ascii_of_N (Z.to_N z)) l).

Definition char_tokenizer : Tokenizer :=
  {| encode := fun _ s => codes s;
     decode := text_of;
     chat_template := None;
     apply_chat_template := fun _ msgs => join nl_str (map msg_content msgs);
     eos_token_id := 0%Z;
     convert_tokens_to_ids := fun _ => 1%Z |}.

Definition unk_code (c : ascii) : Z :=
  let n := N_of_ascii c in
  if ((32 <=? n) && (n <? 127))%N then Z.of_N n else 0%Z.

Definition unk_text (z : Z) : string :=
  if (z =? 0)%Z then "<unk>" else String (ascii_of_N (Z.to_N z)) EmptyString.

Definition unk_tokenizer : Tokenizer :=
  {| encode := fun _ s => map unk_code (list_ascii_of_string s);
     decode := fun l => String.concat EmptyString (map unk_text l);
     chat_template := None;
     apply_chat_template := fun _ msgs => join nl_str (map msg_content msgs);
     eos_token_id := 0%Z;
     convert_tokens_to_ids := fun _ => 0%Z |}.

(** A character-level tokenizer that, asked for special tokens, puts the
    token 1 in front, which decodes to the text of the start marker. *)
Definition bos_text (z : Z) : string :=
  if (z =? 1)%Z then "<s>" else String (ascii_of_N (Z.to_N z)) EmptyString.

Definition bos_tokenizer : Tokenizer :=
  {| encode := fun b s => (if b then [1%Z] else []) ++ codes s;
     decode := fun l => String.concat EmptyString (map bos_text l);
     chat_template := None;
     apply_chat_template := fun _ msgs => join nl_str (map msg_content msgs);
     eos_token_id := 2%Z;
     convert_tokens_to_ids := fun _ => 0%Z |}.

Definition sample (tok : Tokenizer) (snips : result (list Snippet * list Z))
    (reply : result string) : Collab :=
  {| Ext := nat;
     Template := string;
     render := fun t fields => (t ++ join "|" (map snd fields))%string;
     general_cot_system := "cot-system";
     general_cot := "cot:";
     general_medrag_system := "medrag-system";
     general_medrag := "medrag:";
     meditron_cot := "meditron-cot:";
     meditron_medrag := "meditron-medrag:";
     module_tokenizer := Some tok;
     Score := Z;
     RetrievalSystemT := unit;
     RetrievalSystem := fun _ _ _ x => (Ok tt, S x);
     retrieve := fun _ _ _ _ x => (snips, S x);
     get_encoding := fun _ x => (Ok tok, S x);
     from_pretrained := fun _ _ x => (Ok tok, S x);
     environ := fun _ => Some "key";
     open_read := fun _ x => (Ok "{{ messages }}", S x);
     os_fault := fun _ _ _ => None;
     api_type := "open_ai";
     PipelineT := unit;
     MistralT := unit;
     GenerativeModelT := unit;
     ChatCompletion_create := fun _ _ _ x =>
       (match reply with Ok a => Ok [a] | Err e => Err e end, S x);
     genai_configure := fun _ x => (Ok tt, S x);
     GenerativeModel := fun _ _ _ x => (Ok tt, S x);
     generate_content := fun _ _ x =>
       (match reply with Ok a => Ok [[a]] | Err e => Err e end, S x);
     pipeline := fun _ _ _ x => (Ok tt, S x);
     pipeline_call := fun _ _ _ x =>
       (match reply with Ok a => Ok [[("generated_text", a)]] | Err e => Err e end, S x);
     Tensor := string;
     PKV := nat;
     Streamer := unit;
     GenOutput := string;
     get_mistral := fun x => (Ok tt, S x);
     TextStreamer := fun _ _ _ => tt;
     ones_like := fun t => t;
     ones := fun _ => EmptyString;
     size1 := fun t => Z.of_nat (String.length t);
     pkv_size := Z.of_nat;
     mistral_generate := fun _ _ _ _ _ _ _ x => (reply, S x);
     out_sequences := fun o => Ok o;
     out_past_key_values := fun _ => Ok 7;
     out_generated_text := fun o => Ok o |}.

Definition world0 (E : Collab) (x : Ext E) : World E :=
  {| ext := x; log := []; dirs := []; files := [] |}.

(** No snippet is found and the model answers "The answer is A.". *)
Definition sample_plain : Collab :=
  sample char_tokenizer (Ok ([], [])) (Ok "The answer is A.").

(** One snippet is found and the model call raises. *)
Definition sample_failing : Collab :=
  sample char_tokenizer (Ok ([{| title := "T"; content := "C" |}], [9%Z]))
    (Err (Raised "model failure")).

(** No snippet is found and the model answers with runs of whitespace. *)
Definition sample_spaced : Collab :=
  sample char_tokenizer (Ok ([], []))
    (Ok ("A  is" ++ nl_str ++ nl_str ++ "correct")%string).

(** No snippet is found and the tokenizers add a start marker. *)
Definition sample_bos : Collab :=
  sample bos_tokenizer (Ok ([], [])) (Ok "The answer is A.").

(** An instance with the general templates. *)
Definition instance (E : Collab) (name : string) (rag : bool)
    (rs : option (RetrievalSystemT E)) (model : Handle E)
    (budgets : option Z * option Z) (tok : Tokenizer) : MedRAG E :=
  {| llm_name := name; rag := rag; retriever_name := "RRF-4";
     corpus_name := "MedCorp"; db_dir := "./corpus"; cache_dir := None;
     retrieval_system := rs;
     templates :=
       {| cot_system := general_cot_system E; cot_prompt := general_cot E;
          medrag_system := general_medrag_system E;
          medrag_prompt := general_medrag E |};
     model := model; max_length := fst budgets; context_length := snd budgets;
     tokenizer := tok |}.

(** [MedRAG("OpenAI/gpt-4", rag=...)] over the sample worlds. *)
Definition gpt4 (E : Collab) (rag : bool) (rs : option (RetrievalSystemT E))
    : MedRAG E :=
  instance E "OpenAI/gpt-4" rag rs (ModelName "gpt-4")
    (Some 32768%Z, Some 30000%Z) char_tokenizer.

Definition gpt4_plain : MedRAG sample_plain := gpt4 sample_plain false None.

(** [MedRAG("OpenAI/o1-mini", rag=True)]: no budget is assigned. *)
Definition o1_mini : MedRAG sample_plain :=
  instance sample_plain "OpenAI/o1-mini" true (Some tt) (ModelName "o1-mini")
    (None, None) char_tokenizer.

(** [MedRAG("openai-community/gpt2", rag=True)]: a local model whose name
    holds "openai". *)
Definition community_gpt2 : MedRAG sample_bos :=
  instance sample_bos "openai-community/gpt2" true (Some tt) (Pipeline tt)
    (Some 2048%Z, Some 1024%Z) bos_tokenizer.

(** [MedRAG("epfl-llm/meditron-70b", rag=False)] and
    [MedRAG("mistralai/Mistral-7B-Instruct-v0.2", rag=False)]. *)
Definition meditron_70b : MedRAG sample_plain :=
  {| llm_name := "epfl-llm/meditron-70b"; rag := false; retriever_name := "RRF-4";
     corpus_name := "MedCorp"; db_dir := "./corpus"; cache_dir := None;
     retrieval_system := None;
     templates :=
       {| cot_system := general_cot_system sample_plain;
          cot_prompt := meditron_cot sample_plain;
          medrag_system := general_medrag_system sample_plain;
          medrag_prompt := meditron_medrag sample_plain |};
     model := Pipeline tt;
     max_length := Some 4096%Z; context_length := Some 3072%Z;
     tokenizer := set_chat_template char_tokenizer "{{ messages }}" |}.


(** A local model with the character-level tokenizer that has an unknown
    token, and a context of 1024 characters that starts with a character
    outside the vocabulary. *)
Definition sample_unk : Collab :=
  sample unk_tokenizer (Ok ([], [])) (Ok "The answer is A.").

Definition char_lm : MedRAG sample_unk :=
  instance sample_unk "acme/char-lm" true (Some tt) (Pipeline tt)
    (Some 2048%Z, Some 1024%Z) unk_tokenizer.








(** ** Further notions *)

(** A text starts with a character that is not whitespace, or is empty. *)
Definition starts_nonspace (t : string) : bool :=
  match t with
  | EmptyString => true
  | String d _ => negb (is_space d)
  end.

(** A text whose only whitespace is single spaces: every whitespace
    character is the space, and what follows it is not whitespace. *)
Fixpoint normal_ws (s : string) : bool :=
  match s with
  | EmptyString => true
  | String c r =>
      (if is_space c then Ascii.eqb c " " && starts_nonspace r else true)
      && normal_ws r
  end.

(** The text of a context, as line 123 formats it. *)
Definition document_line (idx : nat) (s : Snippet) : string :=
  ("Document [" ++ str_of_nat idx ++ "] (Title: " ++ title s ++ ") " ++ content s)%string.

(** The budgets [__init__] assigns, read as a function of the name alone. *)
Definition name_budgets (name : string) : option Z * option Z :=
  if String.eqb (provider name) "openai" then openai_budgets (model_part name)
  else if contains "gemini" (lower name) then gemini_budgets name
  else if contains "mistral" (lower name) then (Some 32768%Z, Some 30000%Z)
  else if contains "llama-2" (lower name) then (Some 4096%Z, Some 3072%Z)
  else if contains "llama-3" (lower name) then (Some 8192%Z, Some 7168%Z)
  else if contains "meditron-70b" (lower name) then (Some 4096%Z, Some 3072%Z)
  else if contains "pmc_llama" (lower name) then (Some 2048%Z, Some 1024%Z)
  else (Some 2048%Z, Some 1024%Z).

(** A text holds the character [c]. *)
Fixpoint has_char (c : ascii) (s : string) : bool :=
  match s with
  | EmptyString => false
  | String d r => Ascii.eqb d c || has_char c r
  end.

(** ** The start-up code of the module (lines 20-25)

    The four settings of the [openai] module ([None] is Python's [None]),
    and [config.config] as a dictionary when the module [config] can be
    imported.  An exception in the middle leaves the settings assigned so
    far. *)
Record OpenAISettings := {
  oa_api_type : option string;
  oa_api_base : option string;
  oa_api_version : option string;
  oa_api_key : option string
}.

Fixpoint config_get (key : string) (d : list (string * option string))
    : result (option string) :=
  match d with
  | [] => Err (KeyError key)
  | (k, v) :: t => if String.eqb key k then Ok v else config_get key t
  end.

Definition startup (config : option (list (string * option string)))
    (o : OpenAISettings) : result unit * OpenAISettings :=
  match oa_api_key o with
  | Some _ => (Ok tt, o)
  | None =>
      match config with
      | None => (Err (Raised "ImportError"), o)
      | Some c =>
          match config_get "api_type" c with
          | Err e => (Err e, o)
          | Ok v1 =>
              let o1 := {| oa_api_type := v1; oa_api_base := oa_api_base o;
                           oa_api_version := oa_api_version o;
                           oa_api_key := oa_api_key o |} in
              match config_get "api_base" c with
              | Err e => (Err e, o1)
              | Ok v2 =>
                  let o2 := {| oa_api_type := v1; oa_api_base := v2;
                               oa_api_version := oa_api_version o;
                               oa_api_key := oa_api_key o |} in
                  match config_get "api_version" c with
                  | Err e => (Err e, o2)
                  | Ok v3 =>
                      let o3 := {| oa_api_type := v1; oa_api_base := v2;
                                   oa_api_version := v3;
                                   oa_api_key := oa_api_key o |} in
                      match config_get "api_key" c with
                      | Err e => (Err e, o3)
                      | Ok v4 =>
                          (Ok tt, {| oa_api_type := v1; oa_api_base := v2;
                                     oa_api_version := v3; oa_api_key := v4 |})
                      end
                  end
              end
          end
      end
  end.

(** One snippet is found and the model answers. *)
Definition sample_one : Collab :=
  sample char_tokenizer (Ok ([{| title := "T"; content := "C" |}], [9%Z]))
    (Ok "The answer is A.").

(** The model call returns no sequence, or a dictionary without the text. *)
Definition sample_bare (response : list (list (string * string))) : Collab :=
  {| Ext := nat; Template := string;
     render := fun t fields => (t ++ join "|" (map snd fields))%string;
     general_cot_system := "cot-system"; general_cot := "cot:";
     general_medrag_system := "medrag-system"; general_medrag := "medrag:";
     meditron_cot := "meditron-cot:"; meditron_medrag := "meditron-medrag:";
     module_tokenizer := None;
     Score := Z; RetrievalSystemT := unit;
     RetrievalSystem := fun _ _ _ x => (Err (Raised "no index"), S x);
     retrieve := fun _ _ _ _ x => (Ok ([], []), S x);
     get_encoding := fun _ x => (Ok char_tokenizer, S x);
     from_pretrained := fun _ _ x => (Ok char_tokenizer, S x);
     environ := fun _ => None;
     open_read := fun _ x => (Ok "{{ messages }}", S x);
     os_fault := fun _ _ _ => None;
     api_type := "azure";
     PipelineT := unit; MistralT := unit; GenerativeModelT := unit;
     ChatCompletion_create := fun _ _ _ x => (Ok [], S x);
     genai_configure := fun _ x => (Ok tt, S x);
     GenerativeModel := fun _ _ _ x => (Ok tt, S x);
     generate_content := fun _ _ x => (Ok [], S x);
     pipeline := fun _ _ _ x => (Ok tt, S x);
     pipeline_call := fun _ _ _ x => (Ok response, S x);
     Tensor := string; PKV := nat; Streamer := unit; GenOutput := string;
     get_mistral := fun x => (Ok tt, S x);
     TextStreamer := fun _ _ _ => tt;
     ones_like := fun t => t; ones := fun _ => EmptyString;
     size1 := fun t => Z.of_nat (String.length t);
     pkv_size := Z.of_nat;
     mistral_generate := fun _ _ _ _ _ _ _ x => (Err (Raised "no model"), S x);
     out_sequences := fun o => Ok o;
     out_past_key_values := fun _ => Ok 7;
     out_generated_text := fun o => Ok o |}.

(** [d.get(key)] on the dictionaries a pipeline returns. *)
Fixpoint dict_find (key : string) (d : list (string * string)) : option string :=
  match d with
  | [] => None
  | (k, v) :: t => if String.eqb key k then Some v else dict_find key t
  end.

(** The keyword arguments of the pipeline call of lines 255-274. *)
Definition local_args {E} (self : MedRAG E) (ml : Z) : PipelineArgs :=
  {| pa_do_sample := false;
     pa_eos_token_id :=
       if contains "llama-3" (lower (llm_name self))
       then [eos_token_id (tokenizer self);
             convert_tokens_to_ids (tokenizer self) "<|eot_id|>"]
       else [eos_token_id (tokenizer self)];
     pa_pad_token_id := eos_token_id (tokenizer self);
     pa_max_length := ml; pa_truncation := true;
     pa_stopping_criteria := None |}.

(** A local instance over a model call that returns [response]. *)
Definition bare_local (response : list (list (string * string)))
    : MedRAG (sample_bare response) :=
  instance (sample_bare response) "acme/char-lm" false None (Pipeline tt)
    (Some 2048%Z, Some 1024%Z) char_tokenizer.

(** A hosted generative instance. *)
Definition gemini_pro : MedRAG sample_plain :=
  instance sample_plain "Google/gemini-pro" false None (Gemini tt)
    (Some 30720%Z, Some 28672%Z) char_tokenizer.

(** * Properties *)

(** ** Strings *)

Lemma prefix_app (p b : string) : String.prefix p (p ++ b) = true.
Proof.
  induction p as [|c p IH]; simpl.
  - destruct b; reflexivity.
  - destruct (ascii_dec c c); [exact IH | congruence].
Qed.

Lemma prefix_inv (p t : string) :
  String.prefix p t = true -> exists b, t = (p ++ b)%string.
Proof.
  revert t; induction p as [|c p IH]; intros t H.
  - exists t; reflexivity.
  - destruct t as [|d t]; simpl in H; [discriminate|].
    destruct (ascii_dec c d) as [->|]; [|discriminate].
    destruct (IH _ H) as [b ->]. exists b; reflexivity.
Qed.

Lemma contains_spec (p t : string) : contains p t = true <-> is_substring p t.
Proof.
  split.
  - induction t as [|c t IH]; cbn [contains]; intros H.
    + destruct p; [|discriminate]. exists EmptyString, EmptyString; reflexivity.
    + apply orb_true_iff in H. destruct H as [H|H].
      * destruct (prefix_inv _ _ H) as [b Hb]. exists EmptyString, b; exact Hb.
      * destruct (IH H) as (a & b & ->). exists (String c a), b; reflexivity.
  - intros (a & b & ->). induction a as [|c a IH].
    + change (EmptyString ++ p ++ b)%string with (p ++ b)%string.
      destruct (p ++ b)%string eqn:Hpb; cbn [contains].
      * destruct p; [reflexivity | discriminate].
      * rewrite <- Hpb, prefix_app. reflexivity.
    + change (String c a ++ p ++ b)%string with (String c (a ++ p ++ b)).
      cbn [contains]. rewrite IH. apply orb_true_r.
Qed.

Lemma existsb_contains (stops : list string) (t : string) :
  existsb (fun stop => contains stop t) stops = true
  <-> exists p, In p stops /\ is_substring p t.
Proof.
  rewrite existsb_exists. split; intros (p & Hin & H); exists p; split; auto;
    now apply contains_spec.
Qed.

Lemma skip_nonneg {A} (n : Z) (l : list A) :
  (0 <= n)%Z -> skip n l = skipn (Z.to_nat n) l.
Proof.
  intros H. unfold skip. destruct (Z.ltb_spec n 0); [lia | reflexivity].
Qed.

Lemma take_nonneg {A} (n : Z) (l : list A) :
  (0 <= n)%Z -> take n l = firstn (Z.to_nat n) l.
Proof.
  intros H. unfold take. destruct (Z.ltb_spec n 0); [lia | reflexivity].
Qed.


(** ** The monad *)

Lemma bind_ok {E A B} (m : M E A) (k : A -> M E B) w a w1 :
  m w = (Ok a, w1) -> bind m k w = k a w1.
Proof. intros H. unfold bind. rewrite H. reflexivity. Qed.

Lemma bind_err {E A B} (m : M E A) (k : A -> M E B) w e w1 :
  m w = (Err e, w1) -> bind m k w = (Err e, w1).
Proof. intros H. unfold bind. rewrite H. reflexivity. Qed.

Lemma bind_inv_ok {E A B} (m : M E A) (k : A -> M E B) w b w2 :
  bind m k w = (Ok b, w2) ->
  exists a w1, m w = (Ok a, w1) /\ k a w1 = (Ok b, w2).
Proof.
  unfold bind. destruct (m w) as [[a|e] w1]; intros H.
  - exists a, w1. split; [reflexivity | exact H].
  - discriminate.
Qed.

(** ** Frames *)

Section Frames.

Context {E : Collab}.

Variable ok : Event E -> Prop.

Lemma frame_ret {A} (a : A) : frame ok (ret a).
Proof. intros w. simpl. repeat split. exists []. rewrite app_nil_r. auto. Qed.

Lemma frame_raise {A} (e : exn) : frame ok (@raise E A e).
Proof. intros w. simpl. repeat split. exists []. rewrite app_nil_r. auto. Qed.

Lemma frame_lift {A} (r : result A) : frame ok (lift r).
Proof. intros w. simpl. repeat split. exists []. rewrite app_nil_r. auto. Qed.

Lemma frame_call {A} (f : Ext E -> result A * Ext E) : frame ok (call f).
Proof.
  intros w. unfold call. destruct (f (ext w)) as [r x]. simpl.
  repeat split. exists []. rewrite app_nil_r. auto.
Qed.

Lemma frame_emit (ev : Event E) : ok ev -> frame ok (emit ev).
Proof. intros H w. simpl. repeat split. exists [ev]. auto. Qed.

Lemma frame_bind {A B} (m : M E A) (k : A -> M E B) :
  frame ok m -> (forall a, frame ok (k a)) -> frame ok (bind m k).
Proof.
  intros Hm Hk w. unfold bind. specialize (Hm w).
  destruct (m w) as [[a|e] w1]; simpl in Hm.
  - destruct Hm as (Hf & Hd & evs & Hl & Hok).
    destruct (Hk a w1) as (Hf' & Hd' & evs' & Hl' & Hok').
    rewrite Hf', Hd', Hl', Hf, Hd, Hl. repeat split.
    exists (evs ++ evs'). rewrite app_assoc. split; [reflexivity|].
    apply Forall_app; auto.
  - exact Hm.
Qed.

Lemma frame_getattr {A} name (v : option A) : frame ok (getattr name v).
Proof. destruct v; [apply frame_ret | apply frame_raise]. Qed.

Lemma frame_item0 {A} (l : list A) : frame ok (item0 E l).
Proof. destruct l; [apply frame_raise | apply frame_ret]. Qed.

Lemma frame_getitem key d : frame ok (getitem E key d).
Proof.
  induction d as [|[k v] d IH]; simpl.
  - apply frame_raise.
  - destruct (String.eqb key k); [apply frame_ret | exact IH].
Qed.

Lemma frame_message_content i msgs : frame ok (message_content E i msgs).
Proof.
  unfold message_content. destruct (nth_error msgs i); [apply frame_ret | apply frame_raise].
Qed.

Lemma frame_for_each {A S} (l : list A) (body : A -> S -> M E S) :
  (forall x s, frame ok (body x s)) -> forall s, frame ok (for_each l body s).
Proof.
  intros Hb. induction l as [|x l IH]; intros s; simpl.
  - apply frame_ret.
  - apply frame_bind; [apply Hb | intros s'; apply IH].
Qed.

End Frames.

Lemma frame_weaken {E A} (ok ok' : Event E -> Prop) (m : M E A) :
  (forall ev, ok ev -> ok' ev) -> frame ok m -> frame ok' m.
Proof.
  intros H Hm w. destruct (Hm w) as (Hf & Hd & evs & Hl & Hok).
  repeat split; auto. exists evs. split; auto.
  eapply Forall_impl; eauto.
Qed.

Ltac frame_step :=
  first
    [ apply frame_ret | apply frame_raise | apply frame_lift | apply frame_call
    | apply frame_getattr | apply frame_item0 | apply frame_getitem
    | apply frame_message_content
    | apply frame_bind; [| intro]
    | match goal with
      | |- frame _ (if ?c then _ else _) => destruct c
      | |- frame _ (match ?x with _ => _ end) => destruct x
      | |- frame _ (let '(_, _) := ?x in _) => destruct x
      end ].

(** ** What the log of a method holds *)

Lemma gen_calls_app {E} (l1 l2 : list (Event E)) :
  gen_calls (l1 ++ l2) = gen_calls l1 ++ gen_calls l2.
Proof. apply flat_map_app. Qed.

Lemma retrieve_calls_app {E} (l1 l2 : list (Event E)) :
  retrieve_calls (l1 ++ l2) = retrieve_calls l1 ++ retrieve_calls l2.
Proof. apply flat_map_app. Qed.


Lemma writes_app {E} (l1 l2 : list (Event E)) :
  writes (l1 ++ l2) = writes l1 ++ writes l2.
Proof. apply flat_map_app. Qed.

Lemma model_only {E} (evs : list (Event E)) :
  Forall is_model_call evs ->
  gen_calls evs = [] /\ retrieve_calls evs = [] /\ writes evs = []
  /\ Forall (fun p => p = None) (model_calls evs).
Proof.
  induction 1 as [|ev evs Hev _ IH]; simpl.
  - repeat split; constructor.
  - destruct IH as (Hg & Hr & Hw & Hm). rewrite Hev. simpl.
    repeat split; auto.
Qed.

Lemma retrieve_only {E} (evs : list (Event E)) :
  Forall is_retrieve evs ->
  gen_calls evs = [] /\ writes evs = [] /\ model_calls evs = [].
Proof.
  induction 1 as [|ev evs (q & k & r & ->) _ IH]; simpl; auto.
Qed.

Lemma emit_then {E A} (ev : Event E) (k : M E A) :
  frame is_model_call k ->
  forall w,
    let w' := snd (bind (emit ev) (fun _ => k) w) in
    files w' = files w /\ dirs w' = dirs w
    /\ exists evs, log w' = log w ++ ev :: evs /\ Forall is_model_call evs.
Proof.
  intros Hk w. unfold bind, emit. cbn zeta.
  match goal with |- context [k ?w1] => destruct (Hk w1) as (Hf & Hd & evs & Hl & Hok) end.
  simpl in *. repeat split; auto. exists evs. rewrite Hl, <- app_assoc. auto.
Qed.

(** [generate] leaves the file system alone and logs its own entry, then at
    most calls of the Mistral model, each with [past_key_values=None]. *)
Lemma generate_frame {E} (self : MedRAG E) (messages : list Message) (w : World E) :
  let w' := snd (generate self messages w) in
  files w' = files w /\ dirs w' = dirs w
  /\ exists evs, log w' = log w ++ EvGenerate messages :: evs
                 /\ Forall is_model_call evs.
Proof.
  unfold generate. apply emit_then.
  repeat first [ frame_step | apply frame_emit; reflexivity ].
Qed.

Lemma generate_calls {E} (self : MedRAG E) (messages : list Message) (w : World E) :
  let w' := snd (generate self messages w) in
  files w' = files w /\ dirs w' = dirs w
  /\ gen_calls (log w') = gen_calls (log w) ++ [messages]
  /\ retrieve_calls (log w') = retrieve_calls (log w)
  /\ writes (log w') = writes (log w).
Proof.
  destruct (generate_frame self messages w) as (Hf & Hd & evs & Hl & Hok).
  cbn zeta. rewrite Hl. destruct (model_only _ Hok) as (Hg & Hr & Hw & _).
  rewrite gen_calls_app, retrieve_calls_app, writes_app. simpl.
  rewrite Hg, Hr, Hw, !app_nil_r. auto.
Qed.

(** ** The phases of [answer] *)

Lemma makedirs_frame {E} (p : string) (w : World E) :
  files (snd (makedirs p w)) = files w
  /\ log (snd (makedirs p w)) = log w
  /\ ext (snd (makedirs p w)) = ext w.
Proof.
  unfold makedirs.
  destruct (String.eqb p EmptyString); [auto|].
  destruct (existsb _ (ancestors p)); [auto|].
  destruct (is_dir p w || is_file (norm p) w); [auto|].
  destruct (os_fault E "makedirs" p (ext w)); auto.
Qed.

(** The directory step changes neither the files nor the log nor the
    outside world, whether it raises or not. *)
Lemma after_prepare_frame {E} (save_dir : option string) (w : World E) :
  files (after_prepare save_dir w) = files w
  /\ log (after_prepare save_dir w) = log w
  /\ ext (after_prepare save_dir w) = ext w.
Proof.
  unfold after_prepare, answer_prepare. destruct save_dir as [d|]; [|auto].
  unfold bind, path_exists.
  destruct (negb (is_dir d w || is_file d w)); [apply makedirs_frame | auto].
Qed.

Lemma answer_prepare_result {E} (save_dir : option string) (w : World E) :
  answer_prepare save_dir w
  = (fst (answer_prepare save_dir w), after_prepare save_dir w).
Proof. unfold after_prepare. now destruct (answer_prepare save_dir w). Qed.

Lemma answer_prepare_none {E} (w : World E) : answer_prepare None w = (Ok tt, w).
Proof. reflexivity. Qed.

Lemma answer_save_result {E} (save_dir : option string) sn answers (w : World E) :
  answer_save save_dir sn answers w
  = (fst (answer_save save_dir sn answers w), after_save save_dir sn answers w).
Proof. unfold after_save. now destruct (answer_save save_dir sn answers w). Qed.

Lemma after_save_none {E} sn answers (w : World E) : after_save None sn answers w = w.
Proof. reflexivity. Qed.

Lemma write_file_cases {E} (p : string) (c : Saved) (w : World E) :
  write_file p c w = (Ok tt, written p c w)
  \/ exists e, write_file p c w = (Err e, w).
Proof.
  unfold write_file. cbv zeta.
  destruct (String.eqb p EmptyString); [right; eauto|].
  destruct (is_dir p w); [right; eauto|].
  destruct (_ && is_file _ w); [right; eauto|].
  destruct (_ && negb _); [right; eauto|].
  destruct (os_fault E "open" p (ext w)); [right; eauto | left; reflexivity].
Qed.

(** The three ways the save step ends: both files written, the first
    written and the second refused, or the first refused. *)
Lemma answer_save_cases {E} (d : string) sn answers (w : World E) :
  let sp := path_join d "snippets.json" in
  let rp := path_join d "response.json" in
  answer_save (Some d) sn answers w
  = (Ok tt, written rp (SavedAnswers answers) (written sp (SavedSnippets sn) w))
  \/ (exists e, answer_save (Some d) sn answers w
                = (Err e, written sp (SavedSnippets sn) w))
  \/ (exists e, answer_save (Some d) sn answers w = (Err e, w)).
Proof.
  intros sp rp. unfold answer_save, bind. fold sp rp.
  destruct (write_file_cases sp (SavedSnippets sn) w) as [H1|[e H1]]; rewrite H1.
  - destruct (write_file_cases rp (SavedAnswers answers)
                (written sp (SavedSnippets sn) w)) as [H2|[e H2]]; rewrite H2.
    + left; reflexivity.
    + right; left; eauto.
  - right; right; eauto.
Qed.

Lemma after_save_some {E} d sn answers (w : World E) :
  fst (answer_save (Some d) sn answers w) = Ok tt ->
  In (path_join d "response.json", SavedAnswers answers)
     (files (after_save (Some d) sn answers w))
  /\ log (after_save (Some d) sn answers w)
     = log w ++ [EvWrite (path_join d "snippets.json");
                 EvWrite (path_join d "response.json")].
Proof.
  unfold after_save. intros H.
  destruct (answer_save_cases d sn answers w) as [H1|[[e H1]|[e H1]]];
    rewrite H1 in *; try discriminate.
  cbn [snd written files log]. split.
  - left; reflexivity.
  - rewrite <- app_assoc. reflexivity.
Qed.

Lemma after_save_calls {E} save_dir sn answers (w : World E) :
  gen_calls (log (after_save save_dir sn answers w)) = gen_calls (log w)
  /\ retrieve_calls (log (after_save save_dir sn answers w)) = retrieve_calls (log w).
Proof.
  destruct save_dir as [d|]; [|auto]. unfold after_save.
  destruct (answer_save_cases d sn answers w) as [H1|[[e H1]|[e H1]]];
    rewrite H1; cbn [snd written log];
    rewrite ?gen_calls_app, ?retrieve_calls_app; simpl; rewrite ?app_nil_r; auto.
Qed.

(** [answer] is its four phases in sequence; an exception of a phase ends
    the call. *)
Lemma answer_unfold {E} (self : MedRAG E) question options k rrf_k save_dir w :
  answer self question options k rrf_k save_dir w =
  match answer_retrieve self question k rrf_k w with
  | (Err e, w1) => (Err e, w1)
  | (Ok (sn, sc, contexts), w1) =>
      match fst (answer_prepare save_dir w1) with
      | Err e => (Err e, after_prepare save_dir w1)
      | Ok _ =>
          match answer_generate self question (format_options options) contexts
                  (after_prepare save_dir w1) with
          | (Err e, w2) => (Err e, w2)
          | (Ok answers, w2) =>
              match fst (answer_save save_dir sn answers w2) with
              | Err e => (Err e, after_save save_dir sn answers w2)
              | Ok _ =>
                  (Ok (match answers with [a] => Single a | _ => Many answers end,
                       sn, sc),
                   after_save save_dir sn answers w2)
              end
          end
      end
  end.
Proof.
  unfold answer. unfold bind at 1.
  destruct (answer_retrieve self question k rrf_k w) as [[[[sn sc] contexts]|e] w1];
    [|reflexivity].
  unfold bind at 1. rewrite answer_prepare_result.
  destruct (fst (answer_prepare save_dir w1)); [|reflexivity].
  unfold bind at 1.
  destruct (answer_generate _ _ _ _ _) as [[answers|e] w2]; [|reflexivity].
  unfold bind at 1. rewrite answer_save_result.
  destruct (fst (answer_save save_dir sn answers w2)); reflexivity.
Qed.

Lemma frame_answer_retrieve {E} (self : MedRAG E) question k rrf_k :
  frame is_retrieve (answer_retrieve self question k rrf_k).
Proof.
  unfold answer_retrieve.
  repeat first [ frame_step | apply frame_emit; do 3 eexists; reflexivity ].
Qed.


(** With retrieval on, the phase hands over exactly one context. *)
Lemma answer_retrieve_one {E} (self : MedRAG E) question k rrf_k w sn sc contexts w1 :
  rag self = true ->
  answer_retrieve self question k rrf_k w = (Ok (sn, sc, contexts), w1) ->
  exists c, contexts = [c].
Proof.
  intros Hrag H. unfold answer_retrieve in H. rewrite Hrag in H.
  repeat match type of H with
         | bind _ _ _ = (Ok _, _) =>
             apply bind_inv_ok in H; destruct H as (? & ? & _ & H)
         | (let '(_, _) := ?x in _) _ = _ => destruct x
         | (if ?c then _ else _) _ = _ => destruct c
         end;
    inversion H; eexists; reflexivity.
Qed.

Lemma answer_generate_no_rag {E} (self : MedRAG E) question options contexts w :
  rag self = false ->
  answer_generate self question options contexts w =
  match generate self (cot_messages self question options) w with
  | (Ok ans, w1) => (Ok [re_sub_ws ans], w1)
  | (Err e, w1) => (Err e, w1)
  end.
Proof.
  intros H. unfold answer_generate. rewrite H. simpl. unfold bind.
  destruct (generate _ _ _) as [[ans|e] w1]; reflexivity.
Qed.

Lemma answer_generate_one {E} (self : MedRAG E) question options c w :
  rag self = true ->
  answer_generate self question options [c] w =
  match generate self (medrag_messages self c question options) w with
  | (Ok ans, w1) => (Ok [re_sub_ws ans], w1)
  | (Err e, w1) => (Err e, w1)
  end.
Proof.
  intros H. unfold answer_generate. rewrite H. simpl. unfold bind.
  destruct (generate _ _ _) as [[ans|e] w1]; reflexivity.
Qed.

Lemma frame_answer_generate {E} (self : MedRAG E) question options contexts w :
  files (snd (answer_generate self question options contexts w)) = files w
  /\ writes (log (snd (answer_generate self question options contexts w)))
     = writes (log w).
Proof.
  assert (Hg : forall msgs,
             frame (fun ev => forall l, writes (ev :: l) = writes l) (generate self msgs)).
  { intros msgs w0. destruct (generate_frame self msgs w0) as (Hf & Hd & evs & Hl & Hok).
    repeat split; auto. exists (EvGenerate msgs :: evs). split; auto.
    constructor; [reflexivity|]. eapply Forall_impl; [|exact Hok].
    intros ev ->. reflexivity. }
  assert (H : frame (fun ev => forall l, writes (ev :: l) = writes l)
                (answer_generate self question options contexts)).
  { unfold answer_generate. destruct (negb (rag self)).
    - apply frame_bind; [apply Hg | intros; apply frame_ret].
    - apply frame_for_each. intros x s.
      apply frame_bind; [apply Hg | intros; apply frame_ret]. }
  destruct (H w) as (Hf & _ & evs & Hl & Hok). split; auto.
  rewrite Hl, writes_app.
  assert (Hw : writes evs = []).
  { clear Hl. induction Hok as [|ev evs Hev _ IH]; [reflexivity|].
    now rewrite Hev. }
  rewrite Hw. apply app_nil_r.
Qed.

(** ** Whitespace runs *)

Lemma re_sub_ws_cons (c : ascii) (r : string) :
  re_sub_ws (String c r)
  = if is_space c then String " " (skip_run r) else String c (re_sub_ws r).
Proof. reflexivity. Qed.

Lemma skip_run_cons (c : ascii) (r : string) :
  skip_run (String c r) = if is_space c then skip_run r else String c (re_sub_ws r).
Proof. reflexivity. Qed.

Lemma runs_cons (c : ascii) (r : string) :
  runs (String c r)
  = match runs r with
    | (b, blk) :: t =>
        if Bool.eqb b (is_space c) then (b, String c blk) :: t
        else (is_space c, String c EmptyString) :: (b, blk) :: t
    | [] => [(is_space c, String c EmptyString)]
    end.
Proof. reflexivity. Qed.

Lemma re_sub_ws_skip_run (s : string) :
  re_sub_ws s = collapse_blocks (runs s)
  /\ skip_run s = collapse_blocks (drop_ws_head (runs s)).
Proof.
  induction s as [|c r [IH1 IH2]]; [split; reflexivity|].
  rewrite re_sub_ws_cons, skip_run_cons, runs_cons, IH1, IH2.
  destruct (runs r) as [|[[|] blk] t]; destruct (is_space c); simpl; auto.
Qed.

Lemma re_sub_ws_collapse (s : string) : re_sub_ws s = collapse_runs s.
Proof. apply re_sub_ws_skip_run. Qed.

Lemma runs_unblocks (s : string) : unblocks (runs s) = s.
Proof.
  induction s as [|c r IH]; [reflexivity|].
  rewrite runs_cons. destruct (runs r) as [|[b blk] t].
  - simpl in *. now rewrite <- IH.
  - destruct (Bool.eqb b (is_space c)); simpl in *; now rewrite <- IH.
Qed.

Lemma runs_maximal (s : string) : maximal_runs (runs s) = true.
Proof.
  induction s as [|c r IH]; [reflexivity|].
  rewrite runs_cons. destruct (runs r) as [|[b blk] t].
  - simpl. now rewrite eqb_reflx.
  - destruct (Bool.eqb b (is_space c)) eqn:Hb.
    + apply eqb_prop in Hb. subst b.
      cbn [maximal_runs] in *. cbn [all_chars String.eqb]. rewrite eqb_reflx.
      apply andb_true_iff in IH. destruct IH as [IH Ht].
      apply andb_true_iff in IH. destruct IH as [IH Hn].
      apply andb_true_iff in IH. destruct IH as [_ Ha].
      now rewrite Ha, Hn, Ht.
    + cbn [maximal_runs] in *. cbn [all_chars String.eqb]. rewrite eqb_reflx.
      rewrite IH. destruct (is_space c), b; simpl in *; congruence.
Qed.

(** ** The stop-phrase criterion *)

(** C3.  With stop phrases [stops], a tokenizer and an offset [N],
    [CustomStoppingCriteria.__call__] decodes a tail of [input_ids[0]] that
    starts at a position [start >= N] (at [N] itself when [N >= 0], so the
    tokens decoded are exactly those at positions [>= N]), and returns true
    exactly when some phrase is a substring of that text; with the phrases
    of the meditron branch the span "final answer: B ###" stops and the span
    "final answer: B" does not. *)
Theorem C3_stop_after_offset :
  forall (S : Type) (stops : list string) (tok : Tokenizer) (N : Z)
         (row : list Z) (rest : list (list Z)) (scores : S),
    let self := CustomStoppingCriteria_init stops tok N in
    let stop := CustomStoppingCriteria_call self (row :: rest) scores in
    exists start : nat,
      (N <= Z.of_nat start)%Z
      /\ ((0 <= N)%Z -> start = Z.to_nat N)
      /\ let span := decode tok (skipn start row) in
         (stop = Ok true <-> exists p, In p stops /\ is_substring p span)
         /\ (stop = Ok false <-> ~ exists p, In p stops /\ is_substring p span)
         /\ (stops = meditron_stops -> span = "final answer: B ###" -> stop = Ok true)
         /\ (stops = meditron_stops -> span = "final answer: B" -> stop = Ok false).
Proof.
  intros S stops tok N row rest scores self stop.
  assert (Hstart : exists start : nat,
             (N <= Z.of_nat start)%Z /\ ((0 <= N)%Z -> start = Z.to_nat N)
             /\ skip N row = skipn start row).
  { unfold skip. destruct (Z.ltb_spec N 0).
    - exists (List.length row - Z.to_nat (- N))%nat. repeat split; lia.
    - exists (Z.to_nat N). repeat split; lia. }
  destruct Hstart as (start & Hle & Hnn & Hskip).
  exists start. split; [exact Hle|]. split; [exact Hnn|]. intros span.
  assert (Hstop : stop = Ok (existsb (fun p => contains p span) stops)).
  { unfold stop, span, CustomStoppingCriteria_call. simpl. now rewrite Hskip. }
  pose proof (existsb_contains stops span) as Hex.
  rewrite Hstop. repeat split.
  - intros H. apply Hex. congruence.
  - intros H. f_equal. now apply Hex.
  - intros H Hp. apply Hex in Hp. congruence.
  - intros H. f_equal. destruct (existsb _ stops); [|reflexivity].
    exfalso. apply H, Hex. reflexivity.
  - intros -> Hs. rewrite Hs. reflexivity.
  - intros -> Hs. rewrite Hs. reflexivity.
Qed.

Lemma C3_stop_after_offset_witness :
  CustomStoppingCriteria_call
    (CustomStoppingCriteria_init meditron_stops char_tokenizer 2)
    [codes "Q:final answer: B ###"] tt = Ok true
  /\ CustomStoppingCriteria_call
       (CustomStoppingCriteria_init meditron_stops char_tokenizer 2)
       [codes "Q:final answer: B"] tt = Ok false.
Proof.
  assert (H02 : (0 <= 2)%Z) by (intros H; discriminate H).
  split.
  - destruct (C3_stop_after_offset unit meditron_stops char_tokenizer 2
                (codes "Q:final answer: B ###") [] tt)
      as (start & _ & Hstart & _ & _ & Htrue & _).
    rewrite (Hstart H02) in Htrue. apply Htrue; reflexivity.
  - destruct (C3_stop_after_offset unit meditron_stops char_tokenizer 2
                (codes "Q:final answer: B") [] tt)
      as (start & _ & Hstart & _ & _ & _ & Hfalse).
    rewrite (Hstart H02) in Hfalse. apply Hfalse; reflexivity.
Defined.

(** ** Answering without retrieval *)




(** ** Whitespace in answers *)

(** C6.  Whenever [answer] returns, its answer is a single string: the text
    some call of [generate] produced, with every maximal run of whitespace
    replaced by one space; the same string is what the save step stores.
    "A  is\n\ncorrect" becomes "A is correct". *)
Theorem C6_answer_collapses_whitespace :
  forall (E : Collab) (self : MedRAG E) (question : string)
         (options : option (list (string * string))) (k rrf_k : Z)
         (save_dir : option string) (w w' : World E)
         (a : Answer) (sn : list Snippet) (sc : list (Score E)),
    answer self question options k rrf_k save_dir w = (Ok (a, sn, sc), w') ->
    (exists messages w1 w2 raw,
        generate self messages w1 = (Ok raw, w2)
        /\ a = Single (collapse_runs raw)
        /\ unblocks (runs raw) = raw
        /\ maximal_runs (runs raw) = true
        /\ forall d, save_dir = Some d ->
             In (path_join d "response.json", SavedAnswers [collapse_runs raw])
                (files w'))
    /\ collapse_runs ("A  is" ++ nl_str ++ nl_str ++ "correct") = "A is correct".
Proof.
  intros E self question options k rrf_k save_dir w w' a sn sc H.
  split; [|reflexivity].
  rewrite answer_unfold in H.
  destruct (answer_retrieve self question k rrf_k w)
    as [[[[sn0 sc0] contexts]|e] w1] eqn:Hret; [|discriminate].
  destruct (fst (answer_prepare save_dir w1)) as [[]|e]; [|discriminate].
  assert (Hgen : exists messages,
             answer_generate self question (format_options options) contexts
               (after_prepare save_dir w1)
             = match generate self messages (after_prepare save_dir w1) with
               | (Ok ans, w2) => (Ok [re_sub_ws ans], w2)
               | (Err e, w2) => (Err e, w2)
               end).
  { destruct (rag self) eqn:Hrag.
    - destruct (answer_retrieve_one _ _ _ _ _ _ _ _ _ Hrag Hret) as [c ->].
      eexists. now apply answer_generate_one.
    - eexists. now apply answer_generate_no_rag. }
  destruct Hgen as [messages Hgen]. rewrite Hgen in H.
  destruct (generate self messages (after_prepare save_dir w1)) as [[raw|e] w2] eqn:Hg;
    [|discriminate].
  destruct (fst (answer_save save_dir sn0 [re_sub_ws raw] w2)) as [[]|e] eqn:Hsave;
    [|discriminate].
  inversion H; subst. exists messages, (after_prepare save_dir w1), w2, raw.
  rewrite <- re_sub_ws_collapse. repeat split; auto using runs_unblocks, runs_maximal.
  intros d ->. now apply after_save_some.
Qed.

Lemma C6_answer_collapses_whitespace_witness :
  answer (gpt4 sample_spaced false None) "Which one?" None 32 100 (Some "out")
    (world0 sample_spaced O)
  = (Ok (Single "A is correct", [], []),
     snd (answer (gpt4 sample_spaced false None) "Which one?" None 32 100 (Some "out")
            (world0 sample_spaced O)))
  /\ In ("out/response.json", SavedAnswers ["A is correct"])
        (files (snd (answer (gpt4 sample_spaced false None) "Which one?" None 32 100
                       (Some "out") (world0 sample_spaced O)))).
Proof.
  split; [reflexivity|].
  destruct (C6_answer_collapses_whitespace sample_spaced
              (gpt4 sample_spaced false None) "Which one?" None 32 100 (Some "out")
              (world0 sample_spaced O) _ _ _ _ eq_refl)
    as [(messages & w1 & w2 & raw & Hg & Ha & _ & _ & Hsave) _].
  injection Ha as Ha. rewrite Ha. apply (Hsave "out" eq_refl).
Defined.

(** ** Failures *)

(** C8.  With a save directory given, an exception of the retrieval call or
    of the generation phase is the exception of [answer], and then the
    files are as they were and no file was opened for writing.  Whenever
    [answer] raises, either that holds or the exception is the one of the
    save step itself, reached after the generation succeeded. *)
Theorem C8_failure_writes_nothing :
  forall (E : Collab) (self : MedRAG E) (question : string)
         (options : option (list (string * string))) (k rrf_k : Z)
         (d : string) (w : World E),
    let out := answer self question options k rrf_k (Some d) w in
    (forall rs e x,
        rag self = true -> retrieval_system self = Some rs ->
        retrieve E rs question k rrf_k (ext w) = (Err e, x) ->
        fst out = Err e
        /\ files (snd out) = files w /\ writes (log (snd out)) = writes (log w))
    /\ (forall sn sc contexts w1 e w2,
           answer_retrieve self question k rrf_k w = (Ok (sn, sc, contexts), w1) ->
           fst (answer_prepare (Some d) w1) = Ok tt ->
           answer_generate self question (format_options options) contexts
             (after_prepare (Some d) w1) = (Err e, w2) ->
           out = (Err e, w2)
           /\ files w2 = files w /\ writes (log w2) = writes (log w))
    /\ (forall e,
           fst out = Err e ->
           (files (snd out) = files w /\ writes (log (snd out)) = writes (log w))
           \/ exists sn sc contexts w1 answers w2,
                answer_retrieve self question k rrf_k w = (Ok (sn, sc, contexts), w1)
                /\ fst (answer_prepare (Some d) w1) = Ok tt
                /\ answer_generate self question (format_options options) contexts
                     (after_prepare (Some d) w1) = (Ok answers, w2)
                /\ fst (answer_save (Some d) sn answers w2) = Err e).
Proof.
  intros E self question options k rrf_k d w out.
  assert (Hgen : forall sn sc contexts w1 r w2,
             answer_retrieve self question k rrf_k w = (Ok (sn, sc, contexts), w1) ->
             answer_generate self question (format_options options) contexts
               (after_prepare (Some d) w1) = (r, w2) ->
             files w1 = files w /\ writes (log w1) = writes (log w)
             /\ files w2 = files w /\ writes (log w2) = writes (log w)).
  { intros sn sc contexts w1 r w2 Hret Hg.
    destruct (frame_answer_retrieve self question k rrf_k w)
      as (Hf & _ & evs & Hl & Hok).
    destruct (retrieve_only _ Hok) as (_ & Hw & _).
    rewrite Hret in Hf, Hl. cbn [snd] in Hf, Hl.
    destruct (frame_answer_generate self question (format_options options) contexts
                (after_prepare (Some d) w1)) as [Hf' Hw'].
    destruct (after_prepare_frame (Some d) w1) as (Hp & Hpl & _).
    rewrite Hg in Hf', Hw'. cbn [snd] in Hf', Hw'.
    assert (Hw1 : writes (log w1) = writes (log w)).
    { rewrite Hl, writes_app, Hw. apply app_nil_r. }
    repeat split; congruence. }
  unfold out. rewrite answer_unfold. split; [|split].
  - intros rs e x Hrag Hrs Hret.
    unfold answer_retrieve. rewrite Hrag, Hrs. simpl.
    unfold bind, emit, call. simpl. rewrite Hret. cbn [fst snd files log].
    repeat split. rewrite writes_app. simpl. apply app_nil_r.
  - intros sn sc contexts w1 e w2 H Hp H0.
    destruct (Hgen _ _ _ _ _ _ H H0) as (_ & _ & Hf & Hw).
    rewrite H, Hp, H0. auto.
  - intros e He.
    destruct (answer_retrieve self question k rrf_k w)
      as [[[[sn sc] contexts]|e0] w1] eqn:Hret.
    + destruct (after_prepare_frame (Some d) w1) as (Hp & Hpl & _).
      destruct (fst (answer_prepare (Some d) w1)) as [[]|e1] eqn:Hprep.
      * destruct (answer_generate self question (format_options options) contexts
                    (after_prepare (Some d) w1)) as [[answers|e1] w2] eqn:Hg.
        -- destruct (fst (answer_save (Some d) sn answers w2)) as [[]|e2] eqn:Hs;
             [discriminate|].
           right. exists sn, sc, contexts, w1, answers, w2.
           cbn [fst] in He. inversion He; subst. auto.
        -- left. destruct (Hgen _ _ _ _ _ _ eq_refl Hg) as (_ & _ & Hf & Hw). auto.
      * left. cbn [snd].
        destruct (frame_answer_retrieve self question k rrf_k w)
          as (Hf & _ & evs & Hl & Hok).
        destruct (retrieve_only _ Hok) as (_ & Hw & _).
        rewrite Hret in Hf, Hl. cbn [snd] in Hf, Hl.
        split; [congruence|]. rewrite Hpl, Hl, writes_app, Hw. apply app_nil_r.
    + left. cbn [snd].
      destruct (frame_answer_retrieve self question k rrf_k w)
        as (Hf & _ & evs & Hl & Hok).
      destruct (retrieve_only _ Hok) as (_ & Hw & _).
      rewrite Hret in Hf, Hl. cbn [snd] in Hf, Hl.
      split; [exact Hf|]. rewrite Hl, writes_app, Hw. apply app_nil_r.
Qed.

Lemma C8_failure_writes_nothing_witness :
  fst (answer (gpt4 sample_failing true (Some tt)) "Which one?" None 32 100 (Some "out")
         (world0 sample_failing O))
  = Err (Raised "model failure")
  /\ files (snd (answer (gpt4 sample_failing true (Some tt)) "Which one?" None 32 100
                   (Some "out") (world0 sample_failing O)))
     = [].
Proof.
  destruct (C8_failure_writes_nothing sample_failing (gpt4 sample_failing true (Some tt))
              "Which one?" None 32 100 "out" (world0 sample_failing O))
    as (_ & Hgen & _).
  destruct (Hgen _ _ _ _ _ _ eq_refl eq_refl eq_refl) as (Hout & Hf & _).
  rewrite Hout. split; [reflexivity | exact Hf].
Defined.

(** ** Retrieval that finds nothing *)

Lemma answer_retrieve_ok {E} (self : MedRAG E) question k rrf_k w rs sn sc x cl :
  rag self = true -> retrieval_system self = Some rs ->
  retrieve E rs question k rrf_k (ext w) = (Ok (sn, sc), x) ->
  context_length self = Some cl ->
  answer_retrieve self question k rrf_k w
  = (Ok (sn, sc,
         [truncate (tokenizer self) (hosted_name self) cl (join nl_str (contexts_of sn))]),
     after_retrieve w question k rrf_k x).
Proof.
  intros Hrag Hrs Hret Hcl. unfold answer_retrieve, hosted_name, contexts_of.
  rewrite Hrag, Hrs, Hcl. simpl. unfold bind, emit, call. simpl. rewrite Hret.
  destruct (contains "openai" _); [reflexivity|].
  destruct (contains "gemini" _); reflexivity.
Qed.

Lemma answer_retrieve_no_budget {E} (self : MedRAG E) question k rrf_k w rs sn sc x :
  rag self = true -> retrieval_system self = Some rs ->
  retrieve E rs question k rrf_k (ext w) = (Ok (sn, sc), x) ->
  context_length self = None ->
  answer_retrieve self question k rrf_k w
  = (Err (AttributeError "context_length"), after_retrieve w question k rrf_k x).
Proof.
  intros Hrag Hrs Hret Hcl. unfold answer_retrieve.
  rewrite Hrag, Hrs, Hcl. simpl. unfold bind, emit, call. simpl. rewrite Hret.
  destruct (contains "openai" _); [reflexivity|].
  destruct (contains "gemini" _); reflexivity.
Qed.

Lemma take_nil {A} (n : Z) : take n (@nil A) = [].
Proof. unfold take. destruct (n <? 0)%Z; apply firstn_nil. Qed.

(** C4 (as amended).  With retrieval on and a budget assigned, when the
    retrieval system returns no snippet and the directory step of lines
    137-138 does not raise, [answer] calls [generate] exactly once, on the
    RAG prompt rendered with the truncation of the empty text as its
    context; for a tokenizer that encodes the empty text to no token and
    decodes no token to the empty text, that context is the empty
    string. *)
Theorem C4_empty_retrieval_one_generation :
  forall (E : Collab) (self : MedRAG E) (question : string)
         (options : option (list (string * string))) (k rrf_k : Z)
         (save_dir : option string) (w : World E)
         (rs : RetrievalSystemT E) (sc : list (Score E)) (x : Ext E) (cl : Z),
    rag self = true ->
    retrieval_system self = Some rs ->
    retrieve E rs question k rrf_k (ext w) = (Ok ([], sc), x) ->
    context_length self = Some cl ->
    fst (answer_prepare save_dir (after_retrieve w question k rrf_k x)) = Ok tt ->
    let context := truncate (tokenizer self) (hosted_name self) cl EmptyString in
    let messages := medrag_messages self context question (format_options options) in
    let out := answer self question options k rrf_k save_dir w in
    gen_calls (log (snd out)) = gen_calls (log w) ++ [messages]
    /\ retrieve_calls (log (snd out)) = retrieve_calls (log w) ++ [(question, k, rrf_k)]
    /\ ((forall b, encode (tokenizer self) b EmptyString = []) ->
        decode (tokenizer self) [] = EmptyString ->
        context = EmptyString).
Proof.
  intros E self question options k rrf_k save_dir w rs sc x cl
         Hrag Hrs Hret Hcl Hprep context messages out.
  assert (Hctx : (forall b, encode (tokenizer self) b EmptyString = []) ->
                 decode (tokenizer self) [] = EmptyString -> context = EmptyString).
  { intros Henc Hdec. unfold context, truncate. now rewrite Henc, take_nil. }
  unfold out. rewrite answer_unfold.
  rewrite (answer_retrieve_ok self question k rrf_k w rs [] sc x cl) by assumption.
  rewrite Hprep.
  change (join nl_str (contexts_of [])) with EmptyString. fold context.
  rewrite answer_generate_one by assumption. fold messages.
  set (w1 := after_prepare save_dir (after_retrieve w question k rrf_k x)).
  destruct (generate_calls self messages w1) as (_ & _ & Hg & Hr & _).
  destruct (after_prepare_frame save_dir (after_retrieve w question k rrf_k x))
    as (_ & Hl & _).
  fold w1 in Hl. rewrite Hl in Hg, Hr. simpl in Hg, Hr.
  rewrite gen_calls_app in Hg. rewrite retrieve_calls_app in Hr.
  simpl in Hg, Hr. rewrite app_nil_r in Hg.
  destruct (generate self messages w1) as [[ans|e] w2]; cbn [fst snd] in *.
  - destruct (after_save_calls save_dir [] [re_sub_ws ans] w2) as [Hg' Hr'].
    destruct (fst (answer_save save_dir [] [re_sub_ws ans] w2));
      cbn [fst snd]; rewrite Hg', Hr'; auto.
  - auto.
Qed.

Lemma C4_empty_retrieval_one_generation_witness :
  gen_calls (log (snd (answer (gpt4 sample_plain true (Some tt)) "Which one?" None
                         32 100 None (world0 sample_plain O))))
  = [medrag_messages (gpt4 sample_plain true (Some tt)) EmptyString "Which one?"
       EmptyString]
  /\ fst (answer (gpt4 sample_plain true (Some tt)) "Which one?" None 32 100 None
            (world0 sample_plain O))
     = Ok (Single "The answer is A.", [], []).
Proof.
  split; [|reflexivity].
  apply (C4_empty_retrieval_one_generation sample_plain (gpt4 sample_plain true (Some tt))
           "Which one?" None 32 100 None (world0 sample_plain O) tt [] 1%nat 30000%Z);
    reflexivity.
Defined.

(** C4 as stated fails.  [MedRAG("OpenAI/o1-mini")] is constructed without a
    budget; its [answer] on a retrieval that finds nothing raises before
    any call of [generate].  And on [MedRAG("openai-community/gpt2")], whose
    tokenizer adds a start marker, the one generation call gets that marker
    as its context. *)
Lemma C4_counterexample :
  (fst (init "OpenAI/o1-mini" true "RRF-4" "MedCorp" "./corpus" None (world0 sample_plain O))
   = Ok o1_mini
   /\ retrieve sample_plain tt "Which one?" 32 100 (ext (world0 sample_plain 2))
      = (Ok ([], []), 3%nat)
   /\ fst (answer o1_mini "Which one?" None 32 100 None (world0 sample_plain 2))
      = Err (AttributeError "context_length")
   /\ gen_calls (log (snd (answer o1_mini "Which one?" None 32 100 None
                             (world0 sample_plain 2))))
      = [])
  /\ (fst (init "openai-community/gpt2" true "RRF-4" "MedCorp" "./corpus" None
            (world0 sample_bos O))
      = Ok community_gpt2
      /\ gen_calls (log (snd (answer community_gpt2 "Which one?" None 32 100 None
                                (world0 sample_bos 3))))
         = [medrag_messages community_gpt2 "<s>" "Which one?" EmptyString]).
Proof. repeat split. Qed.

(** ** Token budgets *)

Ltac run_ok :=
  repeat match goal with
         | H : bind _ _ _ = (Ok _, _) |- _ =>
             apply bind_inv_ok in H; destruct H as (? & ? & ? & H)
         | H : (if ?c then _ else _) _ = (Ok _, _) |- _ => destruct c eqn:?
         | H : (let '(_, _) := ?x in _) _ = (Ok _, _) |- _ => destruct x
         | H : ret _ _ = (Ok _, _) |- _ => inversion H; subst; clear H
         | H : raise _ _ = (Ok _, _) |- _ => discriminate H
         end.

Lemma init_budgets {E} name rag_ rn cn db cd (w w' : World E) (self : MedRAG E) :
  init name rag_ rn cn db cd w = (Ok self, w') ->
  (max_length self = None /\ context_length self = None)
  \/ exists ml cl, max_length self = Some ml /\ context_length self = Some cl
                   /\ In (ml, cl) budget_table.
Proof.
  intros H. unfold init in H.
  apply bind_inv_ok in H. destruct H as (rs & w1 & _ & H).
  cbv zeta in H.
  destruct (String.eqb _ "openai").
  - run_ok. cbn [max_length context_length]. unfold openai_budgets.
    destruct (_ || _); [right; do 2 eexists; simpl; intuition|].
    destruct (contains "gpt-4" _); [right; do 2 eexists; simpl; intuition|].
    left; auto.
  - destruct (contains "gemini" _).
    + run_ok. cbn [max_length context_length]. unfold gemini_budgets.
      destruct (contains "1.5" _); right; do 2 eexists; simpl; intuition.
    + run_ok; cbn [max_length context_length]; right; do 2 eexists; simpl; intuition.
Qed.

(** C7.  Whatever the backend identifier, when [__init__] completes and has
    assigned both budgets, they are one of the pairs of the table and
    [context_length < max_length]. *)
Theorem C7_context_below_max :
  forall (E : Collab) (llm_name : string) (rag : bool)
         (retriever_name corpus_name db_dir : string) (cache_dir : option string)
         (w w' : World E) (self : MedRAG E) (ml cl : Z),
    init llm_name rag retriever_name corpus_name db_dir cache_dir w = (Ok self, w') ->
    max_length self = Some ml ->
    context_length self = Some cl ->
    In (ml, cl) budget_table /\ (cl < ml)%Z.
Proof.
  intros E name rag_ rn cn db cd w w' self ml cl H Hml Hcl.
  destruct (init_budgets _ _ _ _ _ _ _ _ _ H) as [[H1 _]|(ml' & cl' & H1 & H2 & Hin)];
    [congruence|].
  assert (ml' = ml) by congruence. assert (cl' = cl) by congruence. subst.
  split; [exact Hin|].
  simpl in Hin.
  repeat (destruct Hin as [Hin|Hin]; [inversion Hin; subst; reflexivity|]).
  contradiction.
Qed.

Lemma C7_context_below_max_witness :
  init "OpenAI/gpt-4" false "RRF-4" "MedCorp" "./corpus" None (world0 sample_plain O)
  = (Ok gpt4_plain, world0 sample_plain 1)
  /\ In (32768, 30000)%Z budget_table /\ (30000 < 32768)%Z.
Proof.
  split; [reflexivity|].
  apply (C7_context_below_max sample_plain "OpenAI/gpt-4" false "RRF-4" "MedCorp"
           "./corpus" None (world0 sample_plain O) (world0 sample_plain 1) gpt4_plain);
    reflexivity.
Defined.

(** ** A hosted model without a budget *)

Lemma split_first (sep : ascii) (s : string) :
  exists r, s = (first (split sep s) ++ r)%string.
Proof.
  induction s as [|c s [r IH]].
  - exists EmptyString. reflexivity.
  - cbn [split]. destruct (Ascii.eqb c sep).
    + exists (String c s). reflexivity.
    + destruct (split sep s) as [|h t]; simpl in *.
      * exists s. reflexivity.
      * exists r. now rewrite IH at 1.
Qed.

Lemma lower_app (a b : string) : lower (a ++ b) = (lower a ++ lower b)%string.
Proof. induction a as [|c a IH]; simpl; [reflexivity | now rewrite IH]. Qed.

Lemma provider_in_name (name : string) :
  provider name = "openai" -> contains "openai" (lower name) = true.
Proof.
  intros H. apply contains_spec.
  destruct (split_first "/" name) as [r Hr].
  exists EmptyString, (lower r). rewrite Hr at 1.
  rewrite lower_app. unfold provider in H. now rewrite H.
Qed.

(** C10.  For an identifier whose provider is "openai" and whose model part
    holds none of "gpt-3.5", "gpt-35" and "gpt-4", [__init__] with
    [rag=True] completes (when the retrieval system and the encoding load)
    and assigns neither budget; every [answer] on that instance whose
    retrieval returns then raises the attribute error on [context_length],
    before any call of [generate] and without touching the files. *)
Theorem C10_unknown_hosted_model_has_no_budget :
  forall (E : Collab) (llm_name retriever_name corpus_name db_dir : string)
         (cache_dir : option string) (w : World E)
         (rs : RetrievalSystemT E) (x1 : Ext E) (tok : Tokenizer) (x2 : Ext E),
    provider llm_name = "openai" ->
    contains "gpt-3.5" (model_part llm_name) = false ->
    contains "gpt-35" (model_part llm_name) = false ->
    contains "gpt-4" (model_part llm_name) = false ->
    RetrievalSystem E retriever_name corpus_name db_dir (ext w) = (Ok rs, x1) ->
    get_encoding E "cl100k_base" x1 = (Ok tok, x2) ->
    exists (self : MedRAG E) (w' : World E),
      init llm_name true retriever_name corpus_name db_dir cache_dir w = (Ok self, w')
      /\ max_length self = None
      /\ context_length self = None
      /\ forall question options k rrf_k save_dir (w1 : World E) sn sc x,
           retrieve E rs question k rrf_k (ext w1) = (Ok (sn, sc), x) ->
           let out := answer self question options k rrf_k save_dir w1 in
           fst out = Err (AttributeError "context_length")
           /\ gen_calls (log (snd out)) = gen_calls (log w1)
           /\ files (snd out) = files w1.
Proof.
  intros E name rn cn db cd w rs x1 tok x2 Hp H35 H35' H4 Hrs Htok.
  unfold init. unfold bind at 1. unfold bind at 1. unfold call at 1.
  rewrite Hrs. cbn [ret ext]. cbv zeta.
  fold (provider name). rewrite Hp. cbn [String.eqb Ascii.eqb Bool.eqb].
  fold (model_part name). unfold openai_budgets. rewrite H35, H35', H4.
  cbn [orb]. unfold bind, call. cbn [ext]. rewrite Htok.
  eexists. eexists. split; [reflexivity|]. cbn [max_length context_length fst snd].
  split; [reflexivity|]. split; [reflexivity|].
  intros question options k rrf_k save_dir w1 sn sc x Hret.
  rewrite answer_unfold.
  erewrite answer_retrieve_no_budget; [| reflexivity | reflexivity | exact Hret | reflexivity].
  cbn [fst snd after_retrieve log files]. repeat split.
  rewrite gen_calls_app. simpl. apply app_nil_r.
Qed.

Lemma C10_unknown_hosted_model_has_no_budget_witness :
  init "OpenAI/o1-mini" true "RRF-4" "MedCorp" "./corpus" None (world0 sample_plain O)
  = (Ok o1_mini, world0 sample_plain 2)
  /\ fst (answer o1_mini "Which one?" None 32 100 (Some "out") (world0 sample_plain 2))
     = Err (AttributeError "context_length").
Proof.
  split; [reflexivity|].
  destruct (C10_unknown_hosted_model_has_no_budget sample_plain "OpenAI/o1-mini"
              "RRF-4" "MedCorp" "./corpus" None (world0 sample_plain O) tt 1%nat
              char_tokenizer 2%nat eq_refl eq_refl eq_refl eq_refl eq_refl eq_refl)
    as (self & w' & Hinit & _ & _ & Hans).
  injection Hinit as <- _.
  apply (Hans "Which one?" None 32%Z 100%Z (Some "out") (world0 sample_plain 2)
           [] [] 3%nat eq_refl).
Defined.

(** ** Truncation of the context *)




(** ** The local branches of [generate] *)

(** C1 (the code at the failing input).  On an instance whose name holds
    "meditron" (and none of "openai", "gemini", "mistral"), [generate]
    builds the stop-phrase criterion and then raises the unbound-local error
    on [response]: the branch never calls the model, so no text is
    returned. *)
Theorem C1_meditron_generate_raises :
  forall (E : Collab) (self : MedRAG E) (messages : list Message) (w : World E),
    contains "openai" (lower (llm_name self)) = false ->
    contains "gemini" (lower (llm_name self)) = false ->
    contains "mistral" (lower (llm_name self)) = false ->
    contains "meditron" (lower (llm_name self)) = true ->
    fst (generate self messages w) = Err (UnboundLocalError "response")
    /\ log (snd (generate self messages w)) = log w ++ [EvGenerate messages]
    /\ ext (snd (generate self messages w)) = ext w.
Proof.
  intros E self messages w Ho Hg Hm Hd. unfold generate.
  rewrite Ho, Hg, Hm, Hd. cbv zeta. unfold bind, emit, raise. simpl. auto.
Qed.

Lemma C1_meditron_generate_raises_witness :
  fst (init "epfl-llm/meditron-70b" false "RRF-4" "MedCorp" "./corpus" None
         (world0 sample_plain O))
  = Ok meditron_70b
  /\ fst (generate meditron_70b
            (chat "You are a helpful medical expert." "Which one?") (world0 sample_plain 3))
     = Err (UnboundLocalError "response").
Proof.
  split; [reflexivity|].
  apply (C1_meditron_generate_raises sample_plain meditron_70b
           (chat "You are a helpful medical expert." "Which one?")
           (world0 sample_plain 3));
    reflexivity.
Defined.




(** * Further properties of the code *)

(** ** The contexts of the snippets *)

Lemma combine_seq_nth {A} (l : list A) (start i : nat) :
  nth_error (combine (seq start (List.length l)) l) i
  = option_map (fun a => ((start + i)%nat, a)) (nth_error l i).
Proof.
  revert start i. induction l as [|a l IH]; intros start i.
  - destruct i; reflexivity.
  - destruct i; simpl.
    + now rewrite Nat.add_0_r.
    + rewrite IH. now rewrite Nat.add_succ_r.
Qed.

(** Line 123 makes one context per snippet, in order, and the context of
    the snippet of rank [i] is "Document [i] (Title: <title>) <content>". *)
Theorem format_snippets_by_rank :
  forall (retrieved_snippets : list Snippet) (i : nat) (s : Snippet),
    nth_error retrieved_snippets i = Some s ->
    nth_error (format_snippets retrieved_snippets) i = Some (document_line i s)
    /\ List.length (format_snippets retrieved_snippets) = List.length retrieved_snippets.
Proof.
  intros sn i s H. unfold format_snippets. split.
  - rewrite nth_error_map, combine_seq_nth, H. reflexivity.
  - rewrite length_map, length_combine, length_seq. apply Nat.min_id.
Qed.

Lemma format_snippets_by_rank_witness :
  nth_error (format_snippets [{| title := "T"; content := "C" |};
                              {| title := "U"; content := "D" |}]) 1
  = Some "Document [1] (Title: U) D".
Proof.
  apply (format_snippets_by_rank
           [{| title := "T"; content := "C" |}; {| title := "U"; content := "D" |}]
           1 {| title := "U"; content := "D" |} eq_refl).
Defined.

(** ** Truncation *)

(** With a budget [cl >= 0], the truncation decodes a prefix of the encoded
    text of at most [cl] tokens, and all of the tokens when they are at most
    [cl]. *)
Theorem truncate_keeps_prefix :
  forall (tok : Tokenizer) (b : bool) (cl : Z) (text : string),
    (0 <= cl)%Z ->
    exists kept rest,
      encode tok b text = kept ++ rest
      /\ (Z.of_nat (List.length kept) <= cl)%Z
      /\ truncate tok b cl text = decode tok kept
      /\ ((Z.of_nat (List.length (encode tok b text)) <= cl)%Z -> rest = []).
Proof.
  intros tok b cl text Hcl.
  exists (firstn (Z.to_nat cl) (encode tok b text)),
         (skipn (Z.to_nat cl) (encode tok b text)).
  split; [symmetry; apply firstn_skipn|]. split.
  - rewrite length_firstn. lia.
  - split.
    + unfold truncate. now rewrite take_nonneg.
    + intros Hfit. apply skipn_all2. lia.
Qed.

Lemma truncate_keeps_prefix_witness :
  exists kept rest,
    encode char_tokenizer false "Document [0]" = kept ++ rest
    /\ (Z.of_nat (List.length kept) <= 8)%Z
    /\ truncate char_tokenizer false 8 "Document [0]" = decode char_tokenizer kept
    /\ ((Z.of_nat (List.length (encode char_tokenizer false "Document [0]")) <= 8)%Z
        -> rest = []).
Proof.
  apply (truncate_keeps_prefix char_tokenizer false 8 "Document [0]").
  intros H; discriminate H.
Defined.

(** ** The whitespace of an answer *)

Lemma re_sub_ws_normal_aux (s : string) :
  normal_ws (re_sub_ws s) = true
  /\ normal_ws (skip_run s) = true
  /\ starts_nonspace (skip_run s) = true.
Proof.
  induction s as [|c r (IH1 & IH2 & IH3)]; [repeat split|].
  rewrite re_sub_ws_cons, skip_run_cons.
  destruct (is_space c) eqn:Hc.
  - repeat split; auto.
    cbn [normal_ws]. change (is_space " ") with true. cbv iota.
    now rewrite IH3, IH2.
  - repeat split.
    + cbn [normal_ws]. now rewrite Hc, IH1.
    + cbn [normal_ws]. now rewrite Hc, IH1.
    + cbn [starts_nonspace]. now rewrite Hc.
Qed.

Lemma re_sub_ws_fixed (t : string) : normal_ws t = true -> re_sub_ws t = t.
Proof.
  induction t as [|c r IH]; [reflexivity|].
  cbn [normal_ws]. intros H. apply andb_true_iff in H. destruct H as [Hc Hr].
  specialize (IH Hr). rewrite re_sub_ws_cons.
  destruct (is_space c) eqn:Hs; [|now rewrite IH].
  apply andb_true_iff in Hc. destruct Hc as [Hsp Hst].
  apply Ascii.eqb_eq in Hsp. subst c. f_equal.
  destruct r as [|d r']; [reflexivity|].
  rewrite skip_run_cons. cbn [starts_nonspace] in Hst.
  apply negb_true_iff in Hst. rewrite Hst.
  rewrite re_sub_ws_cons, Hst in IH. exact IH.
Qed.

(** [re.sub("\s+", " ", .)] yields a text whose only whitespace is single
    spaces, leaves such a text as it is, and so does nothing when applied a
    second time. *)
Theorem re_sub_ws_idempotent :
  forall s : string,
    normal_ws (re_sub_ws s) = true
    /\ (normal_ws s = true -> re_sub_ws s = s)
    /\ re_sub_ws (re_sub_ws s) = re_sub_ws s.
Proof.
  intros s. destruct (re_sub_ws_normal_aux s) as (H & _ & _).
  split; [exact H|]. split; [apply re_sub_ws_fixed|].
  now apply re_sub_ws_fixed.
Qed.

Lemma re_sub_ws_idempotent_witness :
  re_sub_ws "The answer is A." = "The answer is A.".
Proof.
  destruct (re_sub_ws_idempotent "The answer is A.") as (_ & Hfixed & _).
  apply Hfixed. reflexivity.
Defined.

Lemma answer_returns_text {E} (self : MedRAG E) question options k rrf_k save_dir
    (w w' : World E) a sn sc :
  answer self question options k rrf_k save_dir w = (Ok (a, sn, sc), w') ->
  exists raw w2,
    a = Single (re_sub_ws raw)
    /\ fst (answer_save save_dir sn [re_sub_ws raw] w2) = Ok tt
    /\ w' = after_save save_dir sn [re_sub_ws raw] w2
    /\ files w2 = files w /\ writes (log w2) = writes (log w).
Proof.
  intros H. rewrite answer_unfold in H.
  destruct (frame_answer_retrieve self question k rrf_k w) as (Hf & _ & evs & Hl & Hok).
  destruct (retrieve_only _ Hok) as (_ & Hw & _).
  destruct (answer_retrieve self question k rrf_k w)
    as [[[[sn0 sc0] contexts]|e] w1] eqn:Hret; [|discriminate].
  simpl in Hf, Hl.
  destruct (fst (answer_prepare save_dir w1)) as [[]|e]; [|discriminate].
  destruct (frame_answer_generate self question (format_options options) contexts
              (after_prepare save_dir w1)) as [Hf' Hw'].
  destruct (after_prepare_frame save_dir w1) as (Hp & Hpl & _).
  assert (Hgen : exists messages,
             answer_generate self question (format_options options) contexts
               (after_prepare save_dir w1)
             = match generate self messages (after_prepare save_dir w1) with
               | (Ok ans, w2) => (Ok [re_sub_ws ans], w2)
               | (Err e, w2) => (Err e, w2)
               end).
  { destruct (rag self) eqn:Hrag.
    - destruct (answer_retrieve_one _ _ _ _ _ _ _ _ _ Hrag Hret) as [c ->].
      eexists. now apply answer_generate_one.
    - eexists. now apply answer_generate_no_rag. }
  destruct Hgen as [messages Hgen]. rewrite Hgen in H, Hf', Hw'.
  destruct (generate self messages (after_prepare save_dir w1)) as [[raw|e] w2];
    [|discriminate].
  destruct (fst (answer_save save_dir sn0 [re_sub_ws raw] w2)) as [[]|e] eqn:Hsave;
    [|discriminate].
  simpl in Hf', Hw'. inversion H; subst. exists raw, w2. repeat split.
  - exact Hsave.
  - congruence.
  - rewrite Hw', Hpl, Hl, writes_app, Hw. apply app_nil_r.
Qed.

(** Whenever [answer] returns, what it returns first is one string whose
    only whitespace is single spaces: no tab or line break, and no two
    spaces in a row. *)
Theorem answer_text_has_single_spaces :
  forall (E : Collab) (self : MedRAG E) (question : string)
         (options : option (list (string * string))) (k rrf_k : Z)
         (save_dir : option string) (w w' : World E)
         (a : Answer) (sn : list Snippet) (sc : list (Score E)),
    answer self question options k rrf_k save_dir w = (Ok (a, sn, sc), w') ->
    exists t, a = Single t /\ normal_ws t = true.
Proof.
  intros E self question options k rrf_k save_dir w w' a sn sc H.
  destruct (answer_returns_text _ _ _ _ _ _ _ _ _ _ _ H) as (raw & w2 & -> & _).
  eexists. split; [reflexivity|]. apply re_sub_ws_normal_aux.
Qed.

Lemma answer_text_has_single_spaces_witness :
  exists t,
    fst (answer (gpt4 sample_spaced false None) "Which one?" None 32 100 None
           (world0 sample_spaced O)) = Ok (Single t, [], [])
    /\ normal_ws t = true.
Proof.
  destruct (answer_text_has_single_spaces sample_spaced (gpt4 sample_spaced false None)
              "Which one?" None 32 100 None (world0 sample_spaced O) _ _ _ _ eq_refl)
    as (t & Ht & Hn).
  exists t. split; [|exact Hn]. injection Ht as <-. reflexivity.
Defined.

(** ** The stop criterion and the prompt *)

(** With the offset set to the length of the prompt, the criterion does not
    depend on the prompt: two rows that differ only in their first [N]
    tokens give the same verdict, that of the text decoded from the rest. *)
Theorem stop_ignores_prompt :
  forall (S : Type) (stops : list string) (tok : Tokenizer)
         (prompt1 prompt2 generated : list Z) (rest1 rest2 : list (list Z))
         (scores1 scores2 : S),
    List.length prompt1 = List.length prompt2 ->
    let self := CustomStoppingCriteria_init stops tok (Z.of_nat (List.length prompt1)) in
    CustomStoppingCriteria_call self ((prompt1 ++ generated) :: rest1) scores1
    = Ok (existsb (fun stop => contains stop (decode tok generated)) stops)
    /\ CustomStoppingCriteria_call self ((prompt2 ++ generated) :: rest2) scores2
       = CustomStoppingCriteria_call self ((prompt1 ++ generated) :: rest1) scores1.
Proof.
  intros S stops tok p1 p2 g rest1 rest2 sc1 sc2 Hlen self.
  assert (H : forall p, List.length p = List.length p1 ->
                        skip (Z.of_nat (List.length p1)) (p ++ g) = g).
  { intros p Hp. rewrite skip_nonneg by lia. rewrite Nat2Z.id, <- Hp.
    rewrite skipn_app, skipn_all, Nat.sub_diag. reflexivity. }
  unfold CustomStoppingCriteria_call. simpl.
  rewrite (H p1 eq_refl), (H p2 (eq_sym Hlen)). auto.
Qed.

Lemma stop_ignores_prompt_witness :
  CustomStoppingCriteria_call
    (CustomStoppingCriteria_init meditron_stops char_tokenizer 5)
    [codes "User:final answer: B"] tt
  = Ok false
  /\ CustomStoppingCriteria_call
       (CustomStoppingCriteria_init meditron_stops char_tokenizer 5)
       [codes "#####final answer: B"] tt
     = CustomStoppingCriteria_call
         (CustomStoppingCriteria_init meditron_stops char_tokenizer 5)
         [codes "User:final answer: B"] tt.
Proof.
  apply (stop_ignores_prompt unit meditron_stops char_tokenizer
           (codes "User:") (codes "#####") (codes "final answer: B") [] [] tt tt eq_refl).
Defined.

(** The edges of the criterion: an empty batch raises the index error, an
    empty list of phrases never stops, an empty phrase always stops, and a
    longer list of phrases stops whenever a shorter one does. *)
Theorem stop_edges :
  forall (S : Type) (stops more : list string) (tok : Tokenizer) (N : Z)
         (row : list Z) (rest : list (list Z)) (scores : S),
    CustomStoppingCriteria_call (CustomStoppingCriteria_init stops tok N) [] scores
    = Err IndexError
    /\ CustomStoppingCriteria_call (CustomStoppingCriteria_init [] tok N)
         (row :: rest) scores = Ok false
    /\ (In EmptyString stops ->
        CustomStoppingCriteria_call (CustomStoppingCriteria_init stops tok N)
          (row :: rest) scores = Ok true)
    /\ (CustomStoppingCriteria_call (CustomStoppingCriteria_init stops tok N)
          (row :: rest) scores = Ok true ->
        CustomStoppingCriteria_call (CustomStoppingCriteria_init (stops ++ more) tok N)
          (row :: rest) scores = Ok true).
Proof.
  intros S stops more tok N row rest scores.
  unfold CustomStoppingCriteria_call. simpl. repeat split.
  - intros Hin. f_equal. apply existsb_exists. exists EmptyString. split; [exact Hin|].
    apply contains_spec. exists EmptyString. eexists. reflexivity.
  - intros H. injection H as H. f_equal. rewrite existsb_app, H. reflexivity.
Qed.

Lemma stop_edges_witness :
  CustomStoppingCriteria_call
    (CustomStoppingCriteria_init [EmptyString] char_tokenizer 0) [[]] tt = Ok true
  /\ CustomStoppingCriteria_call
       (CustomStoppingCriteria_init (["B"] ++ ["###"]) char_tokenizer 0)
       [codes "final answer: B"] tt = Ok true.
Proof.
  split.
  - destruct (stop_edges unit [EmptyString] [] char_tokenizer 0 [] [] tt)
      as (_ & _ & Hempty & _).
    apply Hempty. left; reflexivity.
  - destruct (stop_edges unit ["B"] ["###"] char_tokenizer 0
                (codes "final answer: B") [] tt)
      as (_ & _ & _ & Hmore).
    apply Hmore. reflexivity.
Defined.

(** ** Answering with retrieval *)

(** With retrieval on and a budget assigned, whatever the number of
    snippets found, and provided the directory step of lines 137-138 does
    not raise, [answer] retrieves once with the question and the parameters
    it was given and calls [generate] once, on the RAG prompt whose context
    is the truncation of all the contexts joined by line breaks; an
    exception of [generate] or of the save step is the exception of
    [answer], and else the result is a single answer together with the
    snippets and scores as retrieved. *)
Theorem answer_with_retrieval :
  forall (E : Collab) (self : MedRAG E) (question : string)
         (options : option (list (string * string))) (k rrf_k : Z)
         (save_dir : option string) (w : World E)
         (rs : RetrievalSystemT E) (sn : list Snippet) (sc : list (Score E))
         (x : Ext E) (cl : Z),
    rag self = true ->
    retrieval_system self = Some rs ->
    retrieve E rs question k rrf_k (ext w) = (Ok (sn, sc), x) ->
    context_length self = Some cl ->
    fst (answer_prepare save_dir (after_retrieve w question k rrf_k x)) = Ok tt ->
    let context :=
      truncate (tokenizer self) (hosted_name self) cl (join nl_str (contexts_of sn)) in
    let messages := medrag_messages self context question (format_options options) in
    let w1 := after_prepare save_dir (after_retrieve w question k rrf_k x) in
    let out := answer self question options k rrf_k save_dir w in
    gen_calls (log (snd out)) = gen_calls (log w) ++ [messages]
    /\ retrieve_calls (log (snd out)) = retrieve_calls (log w) ++ [(question, k, rrf_k)]
    /\ match generate self messages w1 with
       | (Ok ans, w2) =>
           match fst (answer_save save_dir sn [re_sub_ws ans] w2) with
           | Ok _ => fst out = Ok (Single (re_sub_ws ans), sn, sc)
           | Err e => fst out = Err e
           end
       | (Err e, _) => fst out = Err e
       end.
Proof.
  intros E self question options k rrf_k save_dir w rs sn sc x cl
         Hrag Hrs Hret Hcl Hprep context messages w1 out.
  unfold out. rewrite answer_unfold.
  rewrite (answer_retrieve_ok self question k rrf_k w rs sn sc x cl) by assumption.
  rewrite Hprep.
  fold context. rewrite answer_generate_one by assumption. fold messages. fold w1.
  destruct (generate_calls self messages w1) as (_ & _ & Hg & Hr & _).
  destruct (after_prepare_frame save_dir (after_retrieve w question k rrf_k x))
    as (_ & Hl & _).
  fold w1 in Hl. rewrite Hl in Hg, Hr. simpl in Hg, Hr.
  rewrite gen_calls_app in Hg. rewrite retrieve_calls_app in Hr.
  simpl in Hg, Hr. rewrite app_nil_r in Hg.
  destruct (generate self messages w1) as [[ans|e] w2]; cbn [fst snd] in *.
  - destruct (after_save_calls save_dir sn [re_sub_ws ans] w2) as [Hg' Hr'].
    destruct (fst (answer_save save_dir sn [re_sub_ws ans] w2));
      cbn [fst snd]; rewrite Hg', Hr'; auto.
  - auto.
Qed.

Lemma answer_with_retrieval_witness :
  fst (answer (gpt4 sample_one true (Some tt)) "Which one?" None 32 100 (Some "out")
         (world0 sample_one O))
  = Ok (Single "The answer is A.", [{| title := "T"; content := "C" |}], [9%Z])
  /\ gen_calls (log (snd (answer (gpt4 sample_one true (Some tt)) "Which one?" None
                            32 100 (Some "out") (world0 sample_one O))))
     = [medrag_messages (gpt4 sample_one true (Some tt)) "Document [0] (Title: T) C"
          "Which one?" EmptyString].
Proof.
  destruct (answer_with_retrieval sample_one (gpt4 sample_one true (Some tt))
              "Which one?" None 32 100 (Some "out") (world0 sample_one O) tt
              [{| title := "T"; content := "C" |}] [9%Z] 1%nat 30000%Z
              eq_refl eq_refl eq_refl eq_refl eq_refl)
    as (Hg & _ & Hout).
  split; [exact Hout | exact Hg].
Defined.

(** ** The save step *)






(** ** The save directory *)

Lemma answer_generate_dirs {E} (self : MedRAG E) question options contexts w :
  dirs (snd (answer_generate self question options contexts w)) = dirs w.
Proof.
  assert (Hg : forall msgs, frame (fun _ => True) (generate self msgs)).
  { intros msgs w0. destruct (generate_frame self msgs w0) as (Hf & Hd & evs & Hl & _).
    repeat split; auto. exists (EvGenerate msgs :: evs). split; auto.
    apply Forall_forall. auto. }
  assert (H : frame (fun _ => True) (answer_generate self question options contexts)).
  { unfold answer_generate. destruct (negb (rag self)).
    - apply frame_bind; [apply Hg | intros; apply frame_ret].
    - apply frame_for_each. intros x s.
      apply frame_bind; [apply Hg | intros; apply frame_ret]. }
  apply H.
Qed.


(** Without a save directory [answer] leaves the file system as it was,
    whether it returns or raises: no file is written and no directory is
    made. *)
Theorem answer_without_save_dir :
  forall (E : Collab) (self : MedRAG E) (question : string)
         (options : option (list (string * string))) (k rrf_k : Z) (w : World E),
    let out := answer self question options k rrf_k None w in
    files (snd out) = files w
    /\ dirs (snd out) = dirs w
    /\ writes (log (snd out)) = writes (log w).
Proof.
  intros E self question options k rrf_k w out. unfold out.
  rewrite answer_unfold.
  destruct (frame_answer_retrieve self question k rrf_k w) as (Hf & Hd & evs & Hl & Hok).
  destruct (retrieve_only _ Hok) as (_ & Hw & _).
  destruct (answer_retrieve self question k rrf_k w)
    as [[[[sn sc] contexts]|e] w1]; simpl in Hf, Hd, Hl.
  - rewrite answer_prepare_none. cbn [fst]. change (after_prepare None w1) with w1.
    destruct (frame_answer_generate self question (format_options options) contexts w1)
      as [Hf' Hw'].
    pose proof (answer_generate_dirs self question (format_options options) contexts w1)
      as Hd'.
    destruct (answer_generate _ _ _ _ _) as [[answers|e1] w2];
      cbn [fst snd answer_save ret] in *; rewrite ?after_save_none;
      repeat split; try congruence;
      rewrite Hw', Hl, writes_app, Hw; apply app_nil_r.
  - simpl. repeat split; auto. rewrite Hl, writes_app, Hw. apply app_nil_r.
Qed.




(** ** Construction *)

(** [__init__] keeps the name and the switch it is given.  With [rag=False]
    the instance has no retrieval system; with [rag=True] it has the one
    [RetrievalSystem] returned, and an exception of [RetrievalSystem] is the
    exception of [__init__]. *)
Theorem init_retrieval_system :
  forall (E : Collab) (name : string) (rag_ : bool)
         (rn cn db : string) (cd : option string) (w : World E),
    (forall self w',
        init name rag_ rn cn db cd w = (Ok self, w') ->
        llm_name self = name /\ rag self = rag_
        /\ if rag_
           then exists rs x, RetrievalSystem E rn cn db (ext w) = (Ok rs, x)
                             /\ retrieval_system self = Some rs
           else retrieval_system self = None)
    /\ (forall e x,
           rag_ = true ->
           RetrievalSystem E rn cn db (ext w) = (Err e, x) ->
           fst (init name rag_ rn cn db cd w) = Err e).
Proof.
  intros E name rag_ rn cn db cd w. split.
  - intros self w' H. unfold init in H.
    apply bind_inv_ok in H. destruct H as (rso & w1 & Hrs & H).
    assert (Hrso : if rag_
                   then exists rs x, RetrievalSystem E rn cn db (ext w) = (Ok rs, x)
                                     /\ rso = Some rs
                   else rso = None).
    { destruct rag_.
      - apply bind_inv_ok in Hrs. destruct Hrs as (rs & w0 & Hc & Hr).
        unfold call in Hc. destruct (RetrievalSystem E rn cn db (ext w)) as [r x].
        inversion Hc; subst. inversion Hr; subst. eauto.
      - inversion Hrs; reflexivity. }
    clear Hrs. cbv zeta in H.
    destruct (String.eqb _ "openai"); [|destruct (contains "gemini" _)];
      run_ok; cbn [llm_name rag retrieval_system]; auto.
  - intros e x -> Hrs. unfold init. unfold bind at 1. unfold bind at 1.
    unfold call at 1. rewrite Hrs. reflexivity.
Qed.

Lemma init_retrieval_system_witness :
  retrieval_system gpt4_plain = None
  /\ fst (init "OpenAI/gpt-4" true "RRF-4" "MedCorp" "./corpus" None
            (world0 (sample_bare []) O))
     = Err (Raised "no index").
Proof.
  split.
  - destruct (init_retrieval_system sample_plain "OpenAI/gpt-4" false "RRF-4" "MedCorp"
                "./corpus" None (world0 sample_plain O)) as [Hok _].
    apply (Hok gpt4_plain (world0 sample_plain 1) eq_refl).
  - destruct (init_retrieval_system (sample_bare []) "OpenAI/gpt-4" true "RRF-4"
                "MedCorp" "./corpus" None (world0 (sample_bare []) O)) as [_ Herr].
    apply (Herr (Raised "no index") 1%nat eq_refl eq_refl).
Defined.

Lemma init_name_budgets {E} name rag_ rn cn db cd (w w' : World E) (self : MedRAG E) :
  init name rag_ rn cn db cd w = (Ok self, w') ->
  (max_length self, context_length self) = name_budgets name.
Proof.
  intros H. unfold init in H.
  apply bind_inv_ok in H. destruct H as (rs & w1 & _ & H).
  cbv zeta in H. unfold name_budgets, provider, model_part.
  destruct (String.eqb _ "openai").
  - run_ok. cbn [max_length context_length]. now destruct (openai_budgets _).
  - destruct (contains "gemini" _).
    + run_ok. cbn [max_length context_length]. now destruct (gemini_budgets _).
    + run_ok; cbn [max_length context_length fst snd];
        repeat match goal with
               | Hc : contains ?a ?b = _ |- context [contains ?a ?b] => rewrite Hc
               end;
        reflexivity.
Qed.

(** The budgets of an instance depend on the name alone: two completed
    constructions for the same name, under whatever collaborators, worlds
    and other arguments, assign the same [max_length] and
    [context_length]. *)
Theorem init_budgets_by_name :
  forall (E1 E2 : Collab) (name : string) (rag1 rag2 : bool)
         (rn1 cn1 db1 rn2 cn2 db2 : string) (cd1 cd2 : option string)
         (w1 w1' : World E1) (w2 w2' : World E2)
         (self1 : MedRAG E1) (self2 : MedRAG E2),
    init name rag1 rn1 cn1 db1 cd1 w1 = (Ok self1, w1') ->
    init name rag2 rn2 cn2 db2 cd2 w2 = (Ok self2, w2') ->
    max_length self1 = max_length self2
    /\ context_length self1 = context_length self2.
Proof.
  intros E1 E2 name rag1 rag2 rn1 cn1 db1 rn2 cn2 db2 cd1 cd2 w1 w1' w2 w2'
         self1 self2 H1 H2.
  apply init_name_budgets in H1. apply init_name_budgets in H2.
  rewrite <- H2 in H1. inversion H1. auto.
Qed.

Lemma init_budgets_by_name_witness :
  max_length gpt4_plain = max_length (gpt4 sample_failing true (Some tt))
  /\ context_length gpt4_plain = context_length (gpt4 sample_failing true (Some tt)).
Proof.
  apply (init_budgets_by_name sample_plain sample_failing "OpenAI/gpt-4" false true
           "RRF-4" "MedCorp" "./corpus" "RRF-4" "MedCorp" "./corpus" None None
           (world0 sample_plain O) (world0 sample_plain 1)
           (world0 sample_failing 5) (world0 sample_failing 7));
    reflexivity.
Defined.

(** For a hosted generative backend (a name that holds "gemini" and whose
    provider is not "openai"), [__init__] without the environment variable
    GOOGLE_API_KEY raises the key error; with [rag=False] it has then
    called nothing. *)
Theorem init_gemini_without_key :
  forall (E : Collab) (name : string) (rn cn db : string) (cd : option string)
         (w : World E),
    String.eqb (provider name) "openai" = false ->
    contains "gemini" (lower name) = true ->
    environ E "GOOGLE_API_KEY" = None ->
    init name false rn cn db cd w = (Err (KeyError "GOOGLE_API_KEY"), w)
    /\ forall rs x,
         RetrievalSystem E rn cn db (ext w) = (Ok rs, x) ->
         fst (init name true rn cn db cd w) = Err (KeyError "GOOGLE_API_KEY").
Proof.
  intros E name rn cn db cd w Hp Hg Henv. unfold provider in Hp. split.
  - unfold init. unfold bind at 1. cbn [ret]. cbv zeta.
    rewrite Hp, Hg. unfold bind at 1. rewrite Henv. reflexivity.
  - intros rs x Hrs. unfold init. unfold bind at 1. unfold bind at 1.
    unfold call at 1. rewrite Hrs. cbn [ret]. cbv zeta.
    rewrite Hp, Hg. unfold bind at 1. rewrite Henv. reflexivity.
Qed.

Lemma init_gemini_without_key_witness :
  init "Google/gemini-1.5-pro" false "RRF-4" "MedCorp" "./corpus" None
    (world0 (sample_bare []) O)
  = (Err (KeyError "GOOGLE_API_KEY"), world0 (sample_bare []) O).
Proof.
  apply (init_gemini_without_key (sample_bare []) "Google/gemini-1.5-pro" "RRF-4"
           "MedCorp" "./corpus" None (world0 (sample_bare []) O));
    reflexivity.
Defined.

Lemma call_inv_ok {E A} (f : Ext E -> result A * Ext E) (w w' : World E) (a : A) :
  call f w = (Ok a, w') -> f (ext w) = (Ok a, ext w').
Proof.
  unfold call. destruct (f (ext w)) as [r x]. intros H. inversion H; subst. reflexivity.
Qed.

(** A name that matches none of the known families (provider other than
    "openai", none of "gemini", "mistral", "llama-2", "llama-3",
    "meditron-70b", "pmc_llama") falls through to the generic local
    backend: the budgets 2048 and 1024, the general templates, the
    tokenizer loaded for the whole name and left as loaded, and a
    text-generation pipeline for the whole name. *)
Theorem init_unknown_name_is_generic_local :
  forall (E : Collab) (name : string) (rag_ : bool) (rn cn db : string)
         (cd : option string) (w w' : World E) (self : MedRAG E),
    String.eqb (provider name) "openai" = false ->
    contains "gemini" (lower name) = false ->
    contains "mistral" (lower name) = false ->
    contains "llama-2" (lower name) = false ->
    contains "llama-3" (lower name) = false ->
    contains "meditron-70b" (lower name) = false ->
    contains "pmc_llama" (lower name) = false ->
    init name rag_ rn cn db cd w = (Ok self, w') ->
    max_length self = Some 2048%Z
    /\ context_length self = Some 1024%Z
    /\ templates self
       = {| cot_system := general_cot_system E; cot_prompt := general_cot E;
            medrag_system := general_medrag_system E;
            medrag_prompt := general_medrag E |}
    /\ exists x0 x1 p,
         from_pretrained E name cd x0 = (Ok (tokenizer self), x1)
         /\ pipeline E "text-generation" name cd x1 = (Ok p, ext w')
         /\ model self = Pipeline p.
Proof.
  intros E name rag_ rn cn db cd w w' self Hp Hg Hm H2 H3 H7 Hpm H.
  unfold init in H. unfold provider in Hp.
  apply bind_inv_ok in H. destruct H as (rs & w1 & _ & H).
  cbv zeta in H. rewrite Hp, Hg in H.
  run_ok; try congruence.
  repeat match goal with
         | Hc : call _ _ = (Ok _, _) |- _ => apply call_inv_ok in Hc
         end.
  cbn [max_length context_length templates tokenizer model fst snd].
  repeat split.
  match goal with
  | H1 : from_pretrained E name cd ?x0 = (Ok _, ?x1),
    H2 : pipeline E _ name cd ?x1 = (Ok ?p, _) |- _ =>
      exists x0, x1, p; auto
  end.
Qed.

Lemma init_unknown_name_is_generic_local_witness :
  max_length char_lm = Some 2048%Z
  /\ context_length char_lm = Some 1024%Z
  /\ model char_lm = Pipeline tt.
Proof.
  destruct (init_unknown_name_is_generic_local sample_unk "acme/char-lm" true "RRF-4"
              "MedCorp" "./corpus" None (world0 sample_unk O) (world0 sample_unk 3)
              char_lm eq_refl eq_refl eq_refl eq_refl eq_refl eq_refl eq_refl eq_refl)
    as (Hml & Hcl & _ & x0 & x1 & p & _ & _ & Hmodel).
  destruct p. auto.
Defined.

Lemma split_no_sep (sep : ascii) (m : string) :
  has_char sep m = false -> split sep m = [m].
Proof.
  induction m as [|c m IH]; [reflexivity|].
  cbn [has_char split]. intros H. apply orb_false_iff in H. destruct H as [Hc Hm].
  rewrite Hc, (IH Hm). reflexivity.
Qed.

Lemma split_app_sep (sep : ascii) (p m : string) :
  has_char sep p = false ->
  split sep (p ++ String sep m) = p :: split sep m.
Proof.
  induction p as [|c p IH]; cbn [has_char append split]; intros H.
  - now rewrite Ascii.eqb_refl.
  - apply orb_false_iff in H. destruct H as [Hc Hp].
    rewrite Hc, (IH Hp). reflexivity.
Qed.

(** For an identifier "<provider>/<model>" whose provider reads "openai" in
    any letter case, the instance holds the model part as written (its case
    kept) as the model name, and its budgets are those of that model
    part. *)
Theorem init_hosted_model_is_model_part :
  forall (E : Collab) (p m : string) (rag_ : bool) (rn cn db : string)
         (cd : option string) (w w' : World E) (self : MedRAG E),
    has_char "/" p = false ->
    has_char "/" m = false ->
    lower p = "openai" ->
    init (p ++ "/" ++ m) rag_ rn cn db cd w = (Ok self, w') ->
    model self = ModelName m
    /\ (max_length self, context_length self) = openai_budgets m.
Proof.
  intros E p m rag_ rn cn db cd w w' self Hp Hm Hlow H.
  unfold init in H.
  apply bind_inv_ok in H. destruct H as (rs & w1 & _ & H).
  cbv zeta in H.
  change (p ++ "/" ++ m)%string with (p ++ String "/" m)%string in H.
  rewrite (split_app_sep "/" p m Hp), (split_no_sep "/" m Hm) in H.
  cbn [first last hd List.last] in H. rewrite Hlow in H.
  cbn [String.eqb Ascii.eqb Bool.eqb] in H.
  run_ok. cbn [model max_length context_length]. split; [reflexivity|].
  now destruct (openai_budgets m).
Qed.

Lemma init_hosted_model_is_model_part_witness :
  model gpt4_plain = ModelName "gpt-4"
  /\ (max_length gpt4_plain, context_length gpt4_plain) = openai_budgets "gpt-4".
Proof.
  apply (init_hosted_model_is_model_part sample_plain "OpenAI" "gpt-4" false "RRF-4"
           "MedCorp" "./corpus" None (world0 sample_plain O) (world0 sample_plain 1)
           gpt4_plain);
    reflexivity.
Defined.

(** ** The branches of [generate] *)

Lemma getitem_find {E} (key : string) (d : list (string * string)) (w : World E) :
  getitem E key d w
  = (match dict_find key d with
     | Some v => Ok v
     | None => Err (KeyError key)
     end, w).
Proof.
  induction d as [|[k v] d IH]; simpl; [reflexivity|].
  destruct (String.eqb key k); [reflexivity | exact IH].
Qed.

(** On a name that holds "openai", [generate] is one chat-completion call
    with the instance's model and the messages, the model passed as
    [engine] exactly when the API type is "azure"; it returns the content of
    the first choice, raises the index error when there is no choice, and
    passes on an exception of the call. *)
Theorem generate_hosted_chat :
  forall (E : Collab) (self : MedRAG E) (messages : list Message) (w : World E)
         (r : result (list string)) (x : Ext E),
    contains "openai" (lower (llm_name self)) = true ->
    ChatCompletion_create E (String.eqb (api_type E) "azure") (model self) messages (ext w)
    = (r, x) ->
    fst (generate self messages w)
    = match r with
      | Ok (c :: _) => Ok c
      | Ok [] => Err IndexError
      | Err e => Err e
      end
    /\ ext (snd (generate self messages w)) = x.
Proof.
  intros E self messages w r x Ho Hc. unfold generate. rewrite Ho.
  unfold bind, emit, call. cbn [ext]. rewrite Hc.
  destruct r as [[|c l]|e]; auto.
Qed.

Lemma generate_hosted_chat_witness :
  fst (generate (gpt4 (sample_bare []) false None) (chat "system" "user")
         (world0 (sample_bare []) O))
  = Err IndexError.
Proof.
  apply (generate_hosted_chat (sample_bare []) (gpt4 (sample_bare []) false None)
           (chat "system" "user") (world0 (sample_bare []) O) (Ok []) 1%nat);
    reflexivity.
Defined.

(** On a hosted generative instance, [generate] needs two messages: with
    fewer it raises the index error without calling the model; with two or
    more it sends the contents of the first two, joined by an empty line, and
    ignores the rest. *)
Theorem generate_gemini_two_messages :
  forall (E : Collab) (self : MedRAG E) (g : GenerativeModelT E)
         (messages : list Message) (w : World E),
    contains "openai" (lower (llm_name self)) = false ->
    contains "gemini" (lower (llm_name self)) = true ->
    model self = Gemini g ->
    match messages with
    | m0 :: m1 :: _ =>
        forall r x,
          generate_content E g
            (msg_content m0 ++ nl_str ++ nl_str ++ msg_content m1)%string (ext w) = (r, x) ->
          fst (generate self messages w)
          = match r with
            | Ok ((t :: _) :: _) => Ok t
            | Ok _ => Err IndexError
            | Err e => Err e
            end
    | _ =>
        fst (generate self messages w) = Err IndexError
        /\ ext (snd (generate self messages w)) = ext w
    end.
Proof.
  intros E self g messages w Ho Hg Hm. unfold generate. rewrite Ho, Hg, Hm.
  destruct messages as [|m0 [|m1 rest]]; [split; reflexivity | split; reflexivity |].
  intros r x Hc. unfold bind, emit, call, message_content. cbn [nth_error ret ext].
  rewrite Hc. destruct r as [[|[|t l] l']|e]; reflexivity.
Qed.

Lemma generate_gemini_two_messages_witness :
  fst (generate gemini_pro [{| msg_role := "user"; msg_content := "Which one?" |}]
         (world0 sample_plain O))
  = Err IndexError
  /\ ext (snd (generate gemini_pro [{| msg_role := "user"; msg_content := "Which one?" |}]
                 (world0 sample_plain O)))
     = O.
Proof.
  apply (generate_gemini_two_messages sample_plain gemini_pro tt
           [{| msg_role := "user"; msg_content := "Which one?" |}] (world0 sample_plain O));
    reflexivity.
Defined.

(** On a local instance outside the Mistral and meditron families,
    [generate] is one pipeline call on the rendered prompt, greedy, with the
    instance's [max_length], truncation on and no stopping criterion (two
    end tokens for "llama-3", else one); it returns the "generated_text" of
    the first returned dictionary, raises the index error when nothing is
    returned and the key error when that key is missing. *)
Theorem generate_local_pipeline :
  forall (E : Collab) (self : MedRAG E) (p : PipelineT E) (ml : Z)
         (messages : list Message) (w : World E)
         (r : result (list (list (string * string)))) (x : Ext E),
    contains "openai" (lower (llm_name self)) = false ->
    contains "gemini" (lower (llm_name self)) = false ->
    contains "mistral" (lower (llm_name self)) = false ->
    contains "meditron" (lower (llm_name self)) = false ->
    model self = Pipeline p ->
    max_length self = Some ml ->
    pipeline_call E p
      (apply_chat_template (tokenizer self) (chat_template (tokenizer self)) messages)
      (local_args self ml) (ext w) = (r, x) ->
    fst (generate self messages w)
    = match r with
      | Ok (d :: _) =>
          match dict_find "generated_text" d with
          | Some t => Ok t
          | None => Err (KeyError "generated_text")
          end
      | Ok [] => Err IndexError
      | Err e => Err e
      end.
Proof.
  intros E self p ml messages w r x Ho Hg Hm Hd Hp Hml Hc.
  unfold generate. rewrite Ho, Hg, Hm, Hd, Hp, Hml. cbv zeta.
  unfold bind, emit, call, getattr. cbn [ret ext]. unfold local_args in Hc.
  rewrite Hc. destruct r as [[|d l]|e]; try reflexivity.
  cbn [item0 ret]. rewrite getitem_find.
  destruct (dict_find "generated_text" d); reflexivity.
Qed.

Lemma generate_local_pipeline_witness :
  fst (generate (bare_local [[("score", "1")]]) (chat "system" "user")
         (world0 (sample_bare [[("score", "1")]]) O))
  = Err (KeyError "generated_text")
  /\ fst (generate (bare_local []) (chat "system" "user") (world0 (sample_bare []) O))
     = Err IndexError.
Proof.
  split.
  - apply (generate_local_pipeline (sample_bare [[("score", "1")]])
             (bare_local [[("score", "1")]]) tt 2048%Z (chat "system" "user")
             (world0 (sample_bare [[("score", "1")]]) O)
             (Ok [[("score", "1")]]) 1%nat);
      reflexivity.
  - apply (generate_local_pipeline (sample_bare []) (bare_local []) tt 2048%Z
             (chat "system" "user") (world0 (sample_bare []) O) (Ok []) 1%nat);
      reflexivity.
Defined.

(** ** The chat template read from a file *)

Lemma prefix_empty (s : string) : String.prefix EmptyString s = true.
Proof. destruct s; reflexivity. Qed.

Lemma replace_char_gone (c : ascii) (s : string) :
  has_char c (replace (String c EmptyString) EmptyString s) = false.
Proof.
  unfold replace. induction s as [|d r IH]; [reflexivity|].
  cbn [replace_from String.prefix].
  destruct (ascii_dec c d) as [->|Hne].
  - rewrite prefix_empty. exact IH.
  - cbn [has_char]. rewrite IH.
    destruct (Ascii.eqb_spec d c); [congruence | reflexivity].
Qed.

Lemma replace_absent (old new s : string) :
  contains old s = false -> replace old new s = s.
Proof.
  unfold replace. induction s as [|d r IH]; [reflexivity|].
  cbn [contains]. intros H. apply orb_false_iff in H. destruct H as [Hp Hr].
  cbn [replace_from]. rewrite Hp, (IH Hr). reflexivity.
Qed.

(** The chat template of lines 75, 85 and 91 is the text of the file with
    the runs of four spaces and then the line breaks taken out: whatever
    the file holds, the template holds no line break, and a file without
    line breaks and without four spaces in a row is taken as it is. *)
Theorem read_template_single_line :
  forall (E : Collab) (path : string) (w w' : World E) (t : string),
    read_template E path w = (Ok t, w') ->
    has_char nl t = false
    /\ exists text,
         open_read E path (ext w) = (Ok text, ext w')
         /\ (contains "    " text = false -> contains nl_str text = false -> t = text).
Proof.
  intros E path w w' t H. unfold read_template in H.
  apply bind_inv_ok in H. destruct H as (text & w1 & Hc & H).
  apply call_inv_ok in Hc. inversion H; subst. split.
  - apply replace_char_gone.
  - exists text. split; [exact Hc|]. intros H4 Hn.
    rewrite (replace_absent "    " EmptyString text H4). now apply replace_absent.
Qed.

Lemma read_template_single_line_witness :
  has_char nl (replace nl_str EmptyString (replace "    " EmptyString "{{ messages }}"))
  = false.
Proof.
  apply (read_template_single_line sample_plain "./templates/meditron.jinja"
           (world0 sample_plain O) (world0 sample_plain 1)).
  reflexivity.
Defined.

(** ** The options *)

Lemma insert_sorted_perm (x : string) (l : list string) :
  Permutation (insert_sorted x l) (x :: l).
Proof.
  induction l as [|y t IH]; simpl; [apply Permutation_refl|].
  destruct (String.leb x y); [apply Permutation_refl|].
  eapply Permutation_trans; [apply perm_skip, IH | apply perm_swap].
Qed.

Lemma insert_sorted_sorted (x : string) (l : list string) :
  Sorted (fun a b => String.leb a b = true) l ->
  Sorted (fun a b => String.leb a b = true) (insert_sorted x l).
Proof.
  induction 1 as [|y t Ht IH Hhd]; simpl.
  - repeat constructor.
  - destruct (String.leb x y) eqn:Hxy.
    + constructor; [constructor; assumption | constructor; exact Hxy].
    + constructor; [exact IH|].
      assert (Hyx : String.leb y x = true).
      { destruct (String.leb_total x y); congruence. }
      destruct t as [|z t']; simpl.
      * constructor; exact Hyx.
      * destruct (String.leb x z); constructor; [exact Hyx|].
        inversion Hhd; assumption.
Qed.

Lemma sorted_spec (l : list string) :
  Permutation (sorted l) l /\ Sorted (fun a b => String.leb a b = true) (sorted l).
Proof.
  induction l as [|x l [IHp IHs]]; simpl.
  - split; constructor.
  - split.
    + eapply Permutation_trans; [apply insert_sorted_perm | apply perm_skip, IHp].
    + now apply insert_sorted_sorted.
Qed.

(** The options are written one per line as "<key>. <value>", by key in
    ascending order of code points whatever the order of the dictionary,
    each key once; without options the text is empty. *)
Theorem format_options_sorted :
  forall d : list (string * string),
    format_options None = EmptyString
    /\ exists keys,
         Permutation keys (map fst d)
         /\ Sorted (fun a b => String.leb a b = true) keys
         /\ format_options (Some d)
            = join nl_str (map (fun key => (key ++ ". " ++ dict_get key d)%string) keys).
Proof.
  intros d. split; [reflexivity|].
  exists (sorted (map fst d)). destruct (sorted_spec (map fst d)) as [Hp Hs].
  repeat split; assumption.
Qed.

(** ** The start-up code *)

(** The start-up code leaves the [openai] settings alone when a key is
    already set, and running it again after it has run changes nothing and
    ends the same way. *)
Theorem startup_idempotent :
  forall (config : option (list (string * option string))) (o : OpenAISettings),
    (oa_api_key o <> None -> startup config o = (Ok tt, o))
    /\ startup config (snd (startup config o)) = startup config o.
Proof.
  intros config o. split.
  - intros H. unfold startup. destruct (oa_api_key o); [reflexivity | congruence].
  - unfold startup. destruct (oa_api_key o) as [key|] eqn:Hk.
    + cbn [snd]. now rewrite Hk.
    + destruct config as [c|]; [cbn [snd]|cbn [snd]; now rewrite Hk].
      destruct (config_get "api_type" c) as [v1|e1];
        [|cbn [snd]; now rewrite Hk].
      destruct (config_get "api_base" c) as [v2|e2]; [|reflexivity].
      destruct (config_get "api_version" c) as [v3|e3]; [|reflexivity].
      destruct (config_get "api_key" c) as [v4|e4]; [|reflexivity].
      destruct v4; reflexivity.
Qed.

Lemma startup_idempotent_witness :
  startup None
    {| oa_api_type := Some "open_ai"; oa_api_base := None; oa_api_version := None;
       oa_api_key := Some "sk" |}
  = (Ok tt,
     {| oa_api_type := Some "open_ai"; oa_api_base := None; oa_api_version := None;
        oa_api_key := Some "sk" |}).
Proof.
  apply (startup_idempotent None). discriminate.
Defined.
